(** * DeepSpeed AIO trampoline: a shallow embedding and its properties

    The development follows two sources:
    - [csrc/aio/py_lib/trampoline.h]: class [Trampoline], which owns a raw
      [DeepSpeedAIOBase* device] and a [void* handle] obtained from
      [dlopen], and forwards every operation to the device;
    - [csrc/aio/py_lib/py_ds_aio.cpp]: class [DeepSpeedAIOTrampoline], which
      owns a raw [device] pointer only, and the pybind11 module that binds
      four standalone functions and the [aio_handle] class.

    C++ objects live in an explicit [World]: the heap of device objects, the
    table of modules opened by [dlopen], the [dlerror] slot, and a log of the
    observable events ([std::cerr] lines, loader calls, forwarded calls).
    Member functions are computations in a small state monad over the
    receiver object and the world; operations the C++ standard leaves
    undefined (deleting or calling through a dangling pointer) end the
    computation in [Undefined]; an exception that leaves a member function
    ends it in [Thrown], with the object and the world as they were when it
    was raised. *)

From Stdlib Require Import ZArith String Ascii List Lia.
From stdpp Require Import base option gmap strings list.

Local Open Scope Z_scope.

(** ** Values *)

(** A non-null pointer value; [ptr] adds [nullptr] as [None]. *)
Definition addr := positive.
Definition ptr := option addr.

(** [torch::Tensor] is opaque to the trampolines: they only pass it on. *)
Record Tensor := mkTensor {
  data_ptr : N;
  numel : N;
  element_size : N;
  is_pinned : bool
}.

(** The calls of the device interface, with their arguments as forwarded. *)
Inductive Call :=
| c_aio_read (buffer : Tensor) (filename : string) (validate : bool)
| c_aio_write (buffer : Tensor) (filename : string) (validate : bool)
| c_deepspeed_memcpy (dest src : Tensor)
| c_get_block_size
| c_get_queue_depth
| c_get_single_submit
| c_get_overlap_events
| c_get_thread_count
| c_read (buffer : Tensor) (filename : string) (validate : bool)
| c_write (buffer : Tensor) (filename : string) (validate : bool)
| c_pread (buffer : Tensor) (filename : string) (validate async : bool)
| c_pwrite (buffer : Tensor) (filename : string) (validate async : bool)
| c_sync_pread (buffer : Tensor) (filename : string)
| c_sync_pwrite (buffer : Tensor) (filename : string)
| c_async_pread (buffer : Tensor) (filename : string)
| c_async_pwrite (buffer : Tensor) (filename : string)
| c_new_cpu_locked_tensor (num_elem : N) (example_tensor : Tensor)
| c_free_cpu_locked_tensor (tensor : Tensor)
| c_wait.

(** The member-function name a call carries in its diagnostics. *)
Definition call_name (c : Call) : string :=
  match c with
  | c_aio_read _ _ _ => "aio_read"
  | c_aio_write _ _ _ => "aio_write"
  | c_deepspeed_memcpy _ _ => "deepspeed_memcpy"
  | c_get_block_size => "get_block_size"
  | c_get_queue_depth => "get_queue_depth"
  | c_get_single_submit => "get_single_submit"
  | c_get_overlap_events => "get_overlap_events"
  | c_get_thread_count => "get_thread_count"
  | c_read _ _ _ => "read"
  | c_write _ _ _ => "write"
  | c_pread _ _ _ _ => "pread"
  | c_pwrite _ _ _ _ => "pwrite"
  | c_sync_pread _ _ => "sync_pread"
  | c_sync_pwrite _ _ => "sync_pwrite"
  | c_async_pread _ _ => "async_pread"
  | c_async_pwrite _ _ => "async_pwrite"
  | c_new_cpu_locked_tensor _ _ => "new_cpu_locked_tensor"
  | c_free_cpu_locked_tensor _ => "free_cpu_locked_tensor"
  | c_wait => "wait"
  end.

(** ** Backends *)

(** Modelled from the spec: the device capability contract declared in
    [../include/deepspeed_aio_base.h], which is not among the sources.  A
    backend reports five read-only configuration values, counts the
    asynchronous operations issued to it and not yet awaited, and keeps the
    pool of locked buffers it handed out. *)
Record Backend := mkBackend {
  block_size : Z;
  queue_depth : Z;
  single_submit : bool;
  overlap_events : bool;
  thread_count : Z;
  outstanding : nat;
  locked_pool : list Tensor
}.

Definition with_outstanding (n : nat) (b : Backend) : Backend :=
  mkBackend (block_size b) (queue_depth b) (single_submit b) (overlap_events b)
            (thread_count b) n (locked_pool b).

Definition with_locked_pool (l : list Tensor) (b : Backend) : Backend :=
  mkBackend (block_size b) (queue_depth b) (single_submit b) (overlap_events b)
            (thread_count b) (outstanding b) l.

Definition tensor_eqb (s t : Tensor) : bool :=
  N.eqb (data_ptr s) (data_ptr t) && N.eqb (numel s) (numel t)
  && N.eqb (element_size s) (element_size t) && Bool.eqb (is_pinned s) (is_pinned t).

Fixpoint remove_first (t : Tensor) (l : list Tensor) : list Tensor :=
  match l with
  | [] => []
  | x :: r => if tensor_eqb t x then r else x :: remove_first t r
  end.

Module Device.

(** Modelled from the spec: the virtual member functions of a backend
    (section 4.1).  Transfers that complete before returning leave the
    bookkeeping alone; asynchronous ones add one outstanding operation. *)
Definition submit (async : bool) (b : Backend) : unit * Backend :=
  (tt, if async then with_outstanding (S (outstanding b)) b else b).

Definition get_block_size (b : Backend) : Z * Backend := (block_size b, b).
Definition get_queue_depth (b : Backend) : Z * Backend := (queue_depth b, b).
Definition get_single_submit (b : Backend) : bool * Backend := (single_submit b, b).
Definition get_overlap_events (b : Backend) : bool * Backend := (overlap_events b, b).
Definition get_thread_count (b : Backend) : Z * Backend := (thread_count b, b).

(** Allocates a pinned region of [num_elem] elements typed like the
    example and returns it. *)
Definition new_cpu_locked_tensor (num_elem : N) (example_tensor : Tensor)
    (b : Backend) : Tensor * Backend :=
  let t := mkTensor (N.of_nat (S (length (locked_pool b)))) num_elem
                    (element_size example_tensor) true in
  (t, with_locked_pool (t :: locked_pool b) b).

Definition free_cpu_locked_tensor (tensor : Tensor) (b : Backend) : unit * Backend :=
  (tt, with_locked_pool (remove_first tensor (locked_pool b)) b).

(** Blocks until every outstanding operation has completed and returns
    how many completed. *)
Definition wait (b : Backend) : Z * Backend :=
  (Z.of_nat (outstanding b), with_outstanding 0 b).

End Device.

(** Modelled from the spec: a backend module on disk (section 6).  Its one
    entry point [create_device], when the module exports it, returns a new
    device instance; the record holds the state such an instance starts in. *)
Record Library := mkLibrary {
  create_device : option Backend
}.

(** ** The world *)

Inductive Event :=
| Cerr (msg : string)
| Dlopen (path : string) (result : ptr)
| Dlsym (h : addr) (symbol : string) (found : bool)
| Dlclose (h : addr)
| New (d : addr)
| Delete (d : addr)
| Forward (d : addr) (c : Call).

Record World := mkWorld {
  cwd : option string;            (* the working directory; [None] when it cannot be read *)
  files : gmap string Library;    (* loadable modules, by path *)
  heap : gmap addr Backend;       (* device objects created and not deleted *)
  modules : gmap addr Library;    (* handles opened and not closed *)
  dl_error : option string;       (* what the next dlerror() returns *)
  next : addr;                    (* next fresh address *)
  log : list Event                (* observable events, oldest first *)
}.

Definition emit (e : Event) (w : World) : World :=
  mkWorld (cwd w) (files w) (heap w) (modules w) (dl_error w) (next w) (log w ++ [e]).

Definition set_heap (h : gmap addr Backend) (w : World) : World :=
  mkWorld (cwd w) (files w) h (modules w) (dl_error w) (next w) (log w).

Definition set_modules (m : gmap addr Library) (w : World) : World :=
  mkWorld (cwd w) (files w) (heap w) m (dl_error w) (next w) (log w).

Definition set_dl_error (e : option string) (w : World) : World :=
  mkWorld (cwd w) (files w) (heap w) (modules w) e (next w) (log w).

Definition bump (w : World) : World :=
  mkWorld (cwd w) (files w) (heap w) (modules w) (dl_error w) (Pos.succ (next w)) (log w).

(** ** Computations *)

Inductive UB :=
| DoubleFree (d : addr)      (* delete of an object already deleted *)
| UseAfterFree (d : addr)    (* member call through a dangling pointer *)
| BadHandle (h : addr)       (* loader call on a handle that is not open *)
| NullCall.                  (* call through a null function pointer *)

(** A member function returns, is left by a C++ exception, or has no
    defined behaviour. *)
Inductive outcome (O A : Type) :=
| Done (a : A) (this : O) (w : World)
| Thrown (this : O) (w : World)
| Undefined (u : UB).
Arguments Done {O A} a this w.
Arguments Thrown {O A} this w.
Arguments Undefined {O A} u.

Definition M (O A : Type) := O -> World -> outcome O A.

Definition ret {O A} (a : A) : M O A := fun this w => Done a this w.

Definition bind {O A B} (m : M O A) (k : A -> M O B) : M O B :=
  fun this w =>
    match m this w with
    | Done a this' w' => k a this' w'
    | Thrown this' w' => Thrown this' w'
    | Undefined u => Undefined u
    end.

#[global] Instance M_ret {O} : MRet (M O) := fun A => @ret O A.
#[global] Instance M_bind {O} : MBind (M O) := fun A B k m => @bind O A B m k.

(** [if (p) body(p)] on a pointer [p]. *)
Definition if_set {O} (p : ptr) (body : addr -> M O unit) : M O unit :=
  match p with
  | Some a => body a
  | None => mret tt
  end.

(** [std::cerr << msg] *)
Definition cerr {O} (msg : string) : M O unit :=
  fun this w => Done tt this (emit (Cerr msg) w).

(** [delete d] for a non-null [d]. *)
Definition delete_ {O} (d : addr) : M O unit :=
  fun this w =>
    match heap w !! d with
    | Some _ => Done tt this (emit (Delete d) (set_heap (delete d (heap w)) w))
    | None => Undefined (DoubleFree d)
    end.

(** A new device object in state [b]; returns its address. *)
Definition new_ {O} (b : Backend) : M O addr :=
  fun this w =>
    let d := next w in
    Done d this (emit (New d) (bump (set_heap (<[d := b]> (heap w)) w))).

(** [d->f(args)] for a non-null [d]: the virtual call [c] with behaviour [f]. *)
Definition invoke {O A} (d : addr) (c : Call) (f : Backend -> A * Backend) : M O A :=
  fun this w =>
    match heap w !! d with
    | Some b =>
        let r := f b in
        Done (fst r) this (emit (Forward d c) (set_heap (<[d := snd r]> (heap w)) w))
    | None => Undefined (UseAfterFree d)
    end.

(** The messages [dlerror] gives for the two resolution failures.  The
    loader is the platform's; the code only prints the message. *)
Definition dlopen_message (path : string) : string :=
  path +:+ ": cannot open shared object file".
Definition dlsym_message (symbol : string) : string :=
  "undefined symbol: " +:+ symbol.

(** [dlopen(path, RTLD_LAZY)] *)
Definition dlopen {O} (path : string) : M O ptr :=
  fun this w =>
    match files w !! path with
    | Some lib =>
        let h := next w in
        Done (Some h) this
             (emit (Dlopen path (Some h)) (bump (set_modules (<[h := lib]> (modules w)) w)))
    | None =>
        Done None this
             (emit (Dlopen path None) (set_dl_error (Some (dlopen_message path)) w))
    end.

(** [dlerror()]: the pending message, which the call clears. *)
Definition dlerror {O} : M O (option string) :=
  fun this w => Done (dl_error w) this (set_dl_error None w).

(** [dlsym(h, "create_device")] for a non-null [h]. *)
Definition dlsym {O} (h : addr) (symbol : string) : M O (option Backend) :=
  fun this w =>
    match modules w !! h with
    | Some lib =>
        match create_device lib with
        | Some b => Done (Some b) this (emit (Dlsym h symbol true) w)
        | None =>
            Done None this
                 (emit (Dlsym h symbol false) (set_dl_error (Some (dlsym_message symbol)) w))
        end
    | None => Undefined (BadHandle h)
    end.

(** [dlclose(h)] for a non-null [h]. *)
Definition dlclose {O} (h : addr) : M O unit :=
  fun this w =>
    match modules w !! h with
    | Some _ => Done tt this (emit (Dlclose h) (set_modules (delete h (modules w)) w))
    | None => Undefined (BadHandle h)
    end.

(** A call through the function pointer [dlsym] returned. *)
Definition call_factory {O} (f : option Backend) : M O ptr :=
  match f with
  | Some b => d ← new_ b; mret (Some d)
  | None => fun _ _ => Undefined NullCall
  end.

(** ** Paths *)

(** [std::filesystem::path::operator/] as the C++ standard library defines
    it on POSIX: an absolute right operand replaces the left one; otherwise a
    separator is added when the left operand ends in a file name. *)
Definition is_absolute (p : string) : bool :=
  match p with
  | String c _ => Ascii.eqb c "/"
  | EmptyString => false
  end.

Fixpoint has_filename (p : string) : bool :=
  match p with
  | EmptyString => false
  | String c EmptyString => negb (Ascii.eqb c "/")
  | String _ r => has_filename r
  end.

Definition path_append (p q : string) : string :=
  if is_absolute q then q
  else if has_filename p then p +:+ "/" +:+ q
  else p +:+ q.

Declare Scope path_scope.
Delimit Scope path_scope with path.
Infix "//" := path_append (at level 40, left associativity) : path_scope.

Local Open Scope path_scope.

(** [std::filesystem::current_path()]: throws [filesystem_error] when the
    working directory cannot be read. *)
Definition current_path {O} : M O string :=
  fun this w =>
    match cwd w with
    | Some p => Done p this w
    | None => Thrown this w
    end.

(** [path::c_str()] as a C function reads it: the characters before the
    first NUL. *)
Fixpoint c_str (s : string) : string :=
  match s with
  | EmptyString => EmptyString
  | String c r => if Ascii.eqb c Ascii.zero then EmptyString else String c (c_str r)
  end.

(** The character ['\n'] and what [operator<<] prints for the [char*] that
    [dlerror] returns. *)
Definition nl : string := String (ascii_of_nat 10) EmptyString.
Definition printed (s : option string) : string := default EmptyString s.

(** What a member function hands back to its caller. *)
Inductive Value :=
| VVoid
| VInt (z : Z)
| VBool (b : bool).

(** ** Dispatch

    Both trampolines guard every forwarding member the same way, on their
    [device] field ([dev] reads it):
    [if (device) device->f(args); else std::cerr << msg;] *)
Definition dispatch_void {O} (dev : O -> ptr) (msg : string)
    (c : Call) (f : Backend -> unit * Backend) : M O unit :=
  fun this =>
    match dev this with
    | Some p => invoke p c f this
    | None => cerr msg this
    end.

(** [if (device) return device->f(); else { std::cerr << msg; return sentinel; }] *)
Definition dispatch_query {O A} (dev : O -> ptr) (msg : string)
    (c : Call) (f : Backend -> A * Backend) (sentinel : A) : M O A :=
  fun this =>
    match dev this with
    | Some p => invoke p c f this
    | None => (cerr msg;; mret sentinel) this
    end.

(** A [void] member whose body calls a device function that returns a
    value: the value is dropped. *)
Definition dispatch_drop {O A} (dev : O -> ptr) (msg : string)
    (c : Call) (f : Backend -> A * Backend) : M O unit :=
  fun this =>
    match dev this with
    | Some p => (invoke p c f;; mret tt) this
    | None => cerr msg this
    end.

Definition void_ {O} (m : M O unit) : M O Value := m;; mret VVoid.
Definition int_ {O} (m : M O Z) : M O Value := z ← m; mret (VInt z).
Definition bool_ {O} (m : M O bool) : M O Value := b ← m; mret (VBool b).

(** ** [class Trampoline] (trampoline.h) *)

Module Trampoline.

Record t := mk {
  device : ptr;   (* DeepSpeedAIOBase* device *)
  handle : ptr    (* void* handle *)
}.

Definition get_device : M t ptr := fun this w => Done (device this) this w.
Definition get_handle : M t ptr := fun this w => Done (handle this) this w.
Definition set_device (p : ptr) : M t unit :=
  fun this w => Done tt (mk p (handle this)) w.
Definition set_handle (p : ptr) : M t unit :=
  fun this w => Done tt (mk (device this) p) w.

(** The resolver part of [load_device]: lines 29-33. *)
Definition so_directory (cwd : string) : string :=
  cwd // "deepspeed" // "ops" // "plugins".
Definition lib_path (cwd device_type : string) : string :=
  so_directory cwd // (device_type +:+ "_op.so").

Definition load_device (device_type : string) : M t unit :=
  d ← get_device;
  if_set d delete_;;
  h ← get_handle;
  if_set h dlclose;;
  here ← current_path;
  h' ← dlopen (c_str (lib_path here device_type));
  set_handle h';;
  match h' with
  | None =>
      e ← dlerror;
      cerr ("Cannot open library: " +:+ printed e +:+ nl)
  | Some hd =>
      dlerror;;
      create ← dlsym hd "create_device";
      dlsym_error ← dlerror;
      match dlsym_error with
      | Some e =>
          cerr ("Cannot load symbol create_device: " +:+ e +:+ nl);;
          dlclose hd;;
          set_handle None
      | None =>
          d' ← call_factory create;
          set_device d'
      end
  end.

(** [explicit Trampoline(const std::string& device_type)] *)
Definition construct (device_type : string) (w : World) : outcome t unit :=
  load_device device_type (mk None None) w.

(** [~Trampoline()] *)
Definition destroy : M t unit :=
  d ← get_device;
  if_set d delete_;;
  h ← get_handle;
  if_set h dlclose.

(** The diagnostic of a forwarding member without a device. *)
Definition no_device (c : Call) : string :=
  "No device loaded for " +:+ call_name c +:+ nl.

Definition forward_void (c : Call) (f : Backend -> unit * Backend) : M t unit :=
  dispatch_void device (no_device c) c f.
Definition forward_query {A} (c : Call) (f : Backend -> A * Backend) (sentinel : A) : M t A :=
  dispatch_query device (no_device c) c f sentinel.
Definition forward_drop {A} (c : Call) (f : Backend -> A * Backend) : M t unit :=
  dispatch_drop device (no_device c) c f.

Definition aio_read (buffer : Tensor) (filename : string) (validate : bool) : M t unit :=
  forward_void (c_aio_read buffer filename validate) (Device.submit false).
Definition aio_write (buffer : Tensor) (filename : string) (validate : bool) : M t unit :=
  forward_void (c_aio_write buffer filename validate) (Device.submit false).
Definition deepspeed_memcpy (dest src : Tensor) : M t unit :=
  forward_void (c_deepspeed_memcpy dest src) (Device.submit false).

Definition get_block_size : M t Z :=
  forward_query c_get_block_size Device.get_block_size (-1).
Definition get_queue_depth : M t Z :=
  forward_query c_get_queue_depth Device.get_queue_depth (-1).
Definition get_single_submit : M t bool :=
  forward_query c_get_single_submit Device.get_single_submit false.
Definition get_overlap_events : M t bool :=
  forward_query c_get_overlap_events Device.get_overlap_events false.
Definition get_thread_count : M t Z :=
  forward_query c_get_thread_count Device.get_thread_count (-1).

Definition read (buffer : Tensor) (filename : string) (validate : bool) : M t unit :=
  forward_void (c_read buffer filename validate) (Device.submit false).
Definition write (buffer : Tensor) (filename : string) (validate : bool) : M t unit :=
  forward_void (c_write buffer filename validate) (Device.submit false).
Definition pread (buffer : Tensor) (filename : string) (validate async : bool) : M t unit :=
  forward_void (c_pread buffer filename validate async) (Device.submit async).
Definition pwrite (buffer : Tensor) (filename : string) (validate async : bool) : M t unit :=
  forward_void (c_pwrite buffer filename validate async) (Device.submit async).

Definition sync_pread (buffer : Tensor) (filename : string) : M t unit :=
  forward_void (c_sync_pread buffer filename) (Device.submit false).
Definition sync_pwrite (buffer : Tensor) (filename : string) : M t unit :=
  forward_void (c_sync_pwrite buffer filename) (Device.submit false).
Definition async_pread (buffer : Tensor) (filename : string) : M t unit :=
  forward_void (c_async_pread buffer filename) (Device.submit true).
Definition async_pwrite (buffer : Tensor) (filename : string) : M t unit :=
  forward_void (c_async_pwrite buffer filename) (Device.submit true).

Definition new_cpu_locked_tensor (num_elem : N) (example_tensor : Tensor) : M t unit :=
  forward_drop (c_new_cpu_locked_tensor num_elem example_tensor)
               (Device.new_cpu_locked_tensor num_elem example_tensor).
Definition free_cpu_locked_tensor (tensor : Tensor) : M t unit :=
  forward_void (c_free_cpu_locked_tensor tensor) (Device.free_cpu_locked_tensor tensor).

Definition wait : M t unit :=
  forward_drop c_wait Device.wait.

(** Every forwarding member, selected by the call it makes. *)
Definition run (c : Call) : M t Value :=
  match c with
  | c_aio_read b f v => void_ (aio_read b f v)
  | c_aio_write b f v => void_ (aio_write b f v)
  | c_deepspeed_memcpy d s => void_ (deepspeed_memcpy d s)
  | c_get_block_size => int_ get_block_size
  | c_get_queue_depth => int_ get_queue_depth
  | c_get_single_submit => bool_ get_single_submit
  | c_get_overlap_events => bool_ get_overlap_events
  | c_get_thread_count => int_ get_thread_count
  | c_read b f v => void_ (read b f v)
  | c_write b f v => void_ (write b f v)
  | c_pread b f v a => void_ (pread b f v a)
  | c_pwrite b f v a => void_ (pwrite b f v a)
  | c_sync_pread b f => void_ (sync_pread b f)
  | c_sync_pwrite b f => void_ (sync_pwrite b f)
  | c_async_pread b f => void_ (async_pread b f)
  | c_async_pwrite b f => void_ (async_pwrite b f)
  | c_new_cpu_locked_tensor n e => void_ (new_cpu_locked_tensor n e)
  | c_free_cpu_locked_tensor x => void_ (free_cpu_locked_tensor x)
  | c_wait => void_ wait
  end.

End Trampoline.

(** ** [class DeepSpeedAIOTrampoline] (py_ds_aio.cpp) *)

Module DeepSpeedAIOTrampoline.

Record t := mk {
  device : ptr    (* DeepSpeedAIOBase* device *)
}.

Definition set_device (p : ptr) : M t unit :=
  fun this w => Done tt (mk p) w.

Definition no_device : string := "No device loaded" +:+ nl.

Definition forward_void (c : Call) (f : Backend -> unit * Backend) : M t unit :=
  dispatch_void device no_device c f.
Definition forward_query {A} (c : Call) (f : Backend -> A * Backend) (sentinel : A) : M t A :=
  dispatch_query device no_device c f sentinel.
Definition forward_drop {A} (c : Call) (f : Backend -> A * Backend) : M t unit :=
  dispatch_drop device no_device c f.

Definition aio_read (buffer : Tensor) (filename : string) (validate : bool) : M t unit :=
  forward_void (c_aio_read buffer filename validate) (Device.submit false).
Definition aio_write (buffer : Tensor) (filename : string) (validate : bool) : M t unit :=
  forward_void (c_aio_write buffer filename validate) (Device.submit false).
Definition deepspeed_memcpy (dest src : Tensor) : M t unit :=
  forward_void (c_deepspeed_memcpy dest src) (Device.submit false).

Definition get_block_size : M t Z :=
  forward_query c_get_block_size Device.get_block_size (-1).
Definition get_queue_depth : M t Z :=
  forward_query c_get_queue_depth Device.get_queue_depth (-1).
Definition get_single_submit : M t bool :=
  forward_query c_get_single_submit Device.get_single_submit false.
Definition get_overlap_events : M t bool :=
  forward_query c_get_overlap_events Device.get_overlap_events false.
Definition get_thread_count : M t Z :=
  forward_query c_get_thread_count Device.get_thread_count (-1).

Definition read (buffer : Tensor) (filename : string) (validate : bool) : M t unit :=
  forward_void (c_read buffer filename validate) (Device.submit false).
Definition write (buffer : Tensor) (filename : string) (validate : bool) : M t unit :=
  forward_void (c_write buffer filename validate) (Device.submit false).
Definition pread (buffer : Tensor) (filename : string) (validate async : bool) : M t unit :=
  forward_void (c_pread buffer filename validate async) (Device.submit async).
Definition pwrite (buffer : Tensor) (filename : string) (validate async : bool) : M t unit :=
  forward_void (c_pwrite buffer filename validate async) (Device.submit async).

Definition sync_pread (buffer : Tensor) (filename : string) : M t unit :=
  forward_void (c_sync_pread buffer filename) (Device.submit false).
Definition sync_pwrite (buffer : Tensor) (filename : string) : M t unit :=
  forward_void (c_sync_pwrite buffer filename) (Device.submit false).
Definition async_pread (buffer : Tensor) (filename : string) : M t unit :=
  forward_void (c_async_pread buffer filename) (Device.submit true).
Definition async_pwrite (buffer : Tensor) (filename : string) : M t unit :=
  forward_void (c_async_pwrite buffer filename) (Device.submit true).

Definition new_cpu_locked_tensor (num_elem : N) (example_tensor : Tensor) : M t unit :=
  forward_drop (c_new_cpu_locked_tensor num_elem example_tensor)
               (Device.new_cpu_locked_tensor num_elem example_tensor).
Definition free_cpu_locked_tensor (tensor : Tensor) : M t unit :=
  forward_void (c_free_cpu_locked_tensor tensor) (Device.free_cpu_locked_tensor tensor).

Definition wait : M t unit :=
  forward_drop c_wait Device.wait.

Definition run (c : Call) : M t Value :=
  match c with
  | c_aio_read b f v => void_ (aio_read b f v)
  | c_aio_write b f v => void_ (aio_write b f v)
  | c_deepspeed_memcpy d s => void_ (deepspeed_memcpy d s)
  | c_get_block_size => int_ get_block_size
  | c_get_queue_depth => int_ get_queue_depth
  | c_get_single_submit => bool_ get_single_submit
  | c_get_overlap_events => bool_ get_overlap_events
  | c_get_thread_count => int_ get_thread_count
  | c_read b f v => void_ (read b f v)
  | c_write b f v => void_ (write b f v)
  | c_pread b f v a => void_ (pread b f v a)
  | c_pwrite b f v a => void_ (pwrite b f v a)
  | c_sync_pread b f => void_ (sync_pread b f)
  | c_sync_pwrite b f => void_ (sync_pwrite b f)
  | c_async_pread b f => void_ (async_pread b f)
  | c_async_pwrite b f => void_ (async_pwrite b f)
  | c_new_cpu_locked_tensor n e => void_ (new_cpu_locked_tensor n e)
  | c_free_cpu_locked_tensor x => void_ (free_cpu_locked_tensor x)
  | c_wait => void_ wait
  end.

(** [~DeepSpeedAIOTrampoline()] *)
Definition destroy : M t unit :=
  fun this => if_set (device this) delete_ this.

Section NVME.

(** The state of a freshly constructed [NVMEDevice]; the class is
    declared outside the sources. *)
Variable NVMEDevice : Backend.

Definition load_device (device_type : string) : M t unit :=
  if String.eqb device_type "nvme" then
    d ← new_ NVMEDevice;
    set_device (Some d)
  else
    cerr ("Unknown device type: " +:+ device_type +:+ nl).

(** [DeepSpeedAIOTrampoline() : device(nullptr) { load_device("nvme"); }] *)
Definition construct (w : World) : outcome t unit :=
  load_device "nvme" (mk None) w.

End NVME.

End DeepSpeedAIOTrampoline.

(** ** [PYBIND11_MODULE] (py_ds_aio.cpp) *)

Module py_ds_aio.

Section Bindings.

Variable NVMEDevice : Backend.

(** A function body [{ DeepSpeedAIOTrampoline aio; aio.f(args); }]: the
    object is built on entry and destroyed when the scope ends, also when
    an exception ends it. *)
Definition scoped (body : M DeepSpeedAIOTrampoline.t unit) (w : World) : outcome unit unit :=
  match DeepSpeedAIOTrampoline.construct NVMEDevice w with
  | Done _ aio w1 =>
      match body aio w1 with
      | Done _ aio' w2 =>
          match DeepSpeedAIOTrampoline.destroy aio' w2 with
          | Done _ _ w3 => Done tt tt w3
          | Thrown _ w3 => Thrown tt w3
          | Undefined u => Undefined u
          end
      | Thrown aio' w2 =>
          match DeepSpeedAIOTrampoline.destroy aio' w2 with
          | Done _ _ w3 => Thrown tt w3
          | Thrown _ w3 => Thrown tt w3
          | Undefined u => Undefined u
          end
      | Undefined u => Undefined u
      end
  | Thrown _ w1 => Thrown tt w1
  | Undefined u => Undefined u
  end.

(** The standalone functions bound with [m.def]. *)
Definition aio_write (buffer : Tensor) (filename : string) (validate : bool) :=
  scoped (DeepSpeedAIOTrampoline.aio_write buffer filename validate).
Definition aio_read (buffer : Tensor) (filename : string) (validate : bool) :=
  scoped (DeepSpeedAIOTrampoline.aio_read buffer filename validate).
Definition deepspeed_memcpy (dest src : Tensor) :=
  scoped (DeepSpeedAIOTrampoline.deepspeed_memcpy dest src).
Definition load_device (device_type : string) :=
  scoped (DeepSpeedAIOTrampoline.load_device NVMEDevice device_type).

End Bindings.

End py_ds_aio.

(** * Vocabulary of the statements *)

(** ** Scenarios

    Worlds and values the examples run on.  [demo_world] has two modules
    under the plugins root of [/opt/ds]: a well-formed [nvme] backend and a
    [broken] one without the factory entry point; no module exists for any
    other device type.  [reload_world] has two well-formed backends. *)

Definition demo_backend : Backend := mkBackend 1048576 128 false true 1 0 [].

Definition gds_backend : Backend := mkBackend 4096 32 true false 4 0 [].

Definition demo_tensor : Tensor := mkTensor 4096 16 4 false.

Definition demo_world : World :=
  mkWorld (Some "/opt/ds")
    (<["/opt/ds/deepspeed/ops/plugins/nvme_op.so" := mkLibrary (Some demo_backend)]>
     (<["/opt/ds/deepspeed/ops/plugins/broken_op.so" := mkLibrary None]> ∅))
    ∅ ∅ None 1%positive [].

Definition reload_world : World :=
  mkWorld (Some "/opt/ds")
    (<["/opt/ds/deepspeed/ops/plugins/nvme_op.so" := mkLibrary (Some demo_backend)]>
     (<["/opt/ds/deepspeed/ops/plugins/gds_op.so" := mkLibrary (Some gds_backend)]> ∅))
    ∅ ∅ None 1%positive [].

(** A world in which one device, at address 2, is live. *)
Definition one_device_world : World :=
  mkWorld (Some "/opt/ds") ∅ (<[2%positive := demo_backend]> ∅) ∅ None 3%positive [].

(** Runs the next member function on the object and world an earlier one left. *)
Definition and_then {O A B} (o : outcome O A) (m : M O B) : outcome O B :=
  match o with
  | Done _ this w => m this w
  | Thrown this w => Thrown this w
  | Undefined u => Undefined u
  end.

(** Three asynchronous writes issued one after the other. *)
Definition three_async_writes : M Trampoline.t unit :=
  Trampoline.async_pwrite demo_tensor "f";;
  Trampoline.async_pwrite demo_tensor "g";;
  Trampoline.async_pwrite demo_tensor "h".

(** ** Ownership and resolution outcomes *)

(** A pointer field is sound when it is null or points to a live entry. *)
Definition points_into {X} (p : ptr) (m : gmap addr X) : Prop :=
  match p with
  | Some a => is_Some (m !! a)
  | None => True
  end.

Definition owns (t : Trampoline.t) (w : World) : Prop :=
  points_into (Trampoline.device t) (heap w) /\
  points_into (Trampoline.handle t) (modules w).

(** Addresses at or above [next w] are unused. *)
Definition fresh (w : World) : Prop :=
  forall a, (next w <= a)%positive -> heap w !! a = None /\ modules w !! a = None.

(** The C string [load_device] hands to [dlopen] for the device type [s],
    and what the loader finds there; nothing when the working directory
    cannot be read. *)
Definition working_directory (w : World) : string := default EmptyString (cwd w).

Definition loader_path (s : string) (w : World) : string :=
  c_str (Trampoline.lib_path (working_directory w) s).

Definition lookup_module (s : string) (w : World) : option (option Library) :=
  match cwd w with
  | Some _ => Some (files w !! loader_path s w)
  | None => None
  end.

Definition open_fails (s : string) (w : World) : Prop :=
  lookup_module s w = Some None.

Definition symbol_missing (s : string) (w : World) : Prop :=
  lookup_module s w = Some (Some (mkLibrary None)).

Definition loadable (s : string) (b : Backend) (w : World) : Prop :=
  lookup_module s w = Some (Some (mkLibrary (Some b))).

Definition unresolvable (s : string) (w : World) : Prop :=
  open_fails s w \/ symbol_missing s w.

(** ** The teardown and what follows it *)

(** The events and the world the first two statements of
    [Trampoline::load_device] and of [~Trampoline] leave. *)
Definition release_events (t : Trampoline.t) : list Event :=
  match Trampoline.device t with Some d => [Delete d] | None => [] end ++
  match Trampoline.handle t with Some h => [Dlclose h] | None => [] end.

Definition without {X} (p : ptr) (m : gmap addr X) : gmap addr X :=
  match p with
  | Some a => delete a m
  | None => m
  end.

Definition released (t : Trampoline.t) (w : World) : World :=
  mkWorld (cwd w) (files w)
          (without (Trampoline.device t) (heap w))
          (without (Trampoline.handle t) (modules w))
          (dl_error w) (next w) (log w ++ release_events t).

(** The statements of [load_device] after the teardown. *)
Definition open_and_create (device_type : string) : M Trampoline.t unit :=
  here ← current_path;
  h' ← dlopen (c_str (Trampoline.lib_path here device_type));
  Trampoline.set_handle h';;
  match h' with
  | None =>
      e ← dlerror;
      cerr ("Cannot open library: " +:+ printed e +:+ nl)
  | Some hd =>
      dlerror;;
      create ← dlsym hd "create_device";
      dlsym_error ← dlerror;
      match dlsym_error with
      | Some e =>
          cerr ("Cannot load symbol create_device: " +:+ e +:+ nl);;
          dlclose hd;;
          Trampoline.set_handle None
      | None =>
          d' ← call_factory create;
          Trampoline.set_device d'
      end
  end.

Definition open_failure_line (path : string) : string :=
  "Cannot open library: " +:+ dlopen_message path +:+ nl.

Definition symbol_failure_line : string :=
  "Cannot load symbol create_device: " +:+ dlsym_message "create_device" +:+ nl.

(** ** Calls without a device *)

(** What a forwarding member returns when [device] is null: [-1] from the
    [int] queries, [false] from the [bool] queries, nothing from the rest. *)
Definition no_device_value (c : Call) : Value :=
  match c with
  | c_get_block_size | c_get_queue_depth | c_get_thread_count => VInt (-1)
  | c_get_single_submit | c_get_overlap_events => VBool false
  | _ => VVoid
  end.

(** The calls a log shows as forwarded to a device. *)
Definition forwards (l : list Event) : list (addr * Call) :=
  flat_map (fun e => match e with Forward d c => [(d, c)] | _ => [] end) l.

(** A caller's use of a [Trampoline]: any of its public member functions. *)
Inductive Action :=
| a_load_device (device_type : string)
| a_call (c : Call).

Definition perform (a : Action) : M Trampoline.t Value :=
  match a with
  | a_load_device s => void_ (Trampoline.load_device s)
  | a_call c => Trampoline.run c
  end.

Fixpoint perform_all (l : list Action) : M Trampoline.t (list Value) :=
  match l with
  | [] => mret []
  | a :: r => v ← perform a; vs ← perform_all r; mret (v :: vs)
  end.

Definition load_cannot_succeed (w : World) (a : Action) : Prop :=
  match a with
  | a_load_device s => unresolvable s w
  | a_call _ => True
  end.

Definition value_without_device (a : Action) : Value :=
  match a with
  | a_load_device _ => VVoid
  | a_call c => no_device_value c
  end.

(** The part of the world a trampoline without a device leaves alone. *)
Definition idle_since (w0 w : World) : Prop :=
  cwd w = cwd w0 /\ files w = files w0 /\ heap w = heap w0 /\
  modules w = modules w0 /\ forwards (log w) = forwards (log w0) /\
  (next w0 <= next w)%positive.

(** ** Diagnostics *)

(** The lines a log shows as written to [std::cerr]. *)
Definition cerr_lines (l : list Event) : list string :=
  flat_map (fun e => match e with Cerr msg => [msg] | _ => [] end) l.

(** The failures the trampoline detects itself, and the reading of a
    diagnostic line that tells them apart. *)
Inductive FailureKind :=
| ModuleOpenFailure
| MissingEntryPoint
| NoDeviceLoaded.

Fixpoint starts_with (p s : string) : bool :=
  match p, s with
  | EmptyString, _ => true
  | String a p', String b s' => Ascii.eqb a b && starts_with p' s'
  | String _ _, EmptyString => false
  end.

Definition diagnose (line : string) : option FailureKind :=
  if starts_with "Cannot open library: " line then Some ModuleOpenFailure
  else if starts_with "Cannot load symbol create_device: " line then Some MissingEntryPoint
  else if starts_with "No device loaded" line then Some NoDeviceLoaded
  else None.

(** ** One active pair *)

(** The devices and the modules a log leaves active, replayed from the
    creations and releases it records. *)
Definition drop_addr (a : addr) (l : list addr) : list addr :=
  List.filter (fun x => negb (Pos.eqb x a)) l.

Definition step_devices (ds : list addr) (e : Event) : list addr :=
  match e with
  | New d => d :: ds
  | Delete d => drop_addr d ds
  | _ => ds
  end.

Definition step_modules (ms : list addr) (e : Event) : list addr :=
  match e with
  | Dlopen _ (Some h) => h :: ms
  | Dlclose h => drop_addr h ms
  | _ => ms
  end.

(** At every point of the log at most one device and at most one module
    are active, starting from the active devices [ds] and modules [ms]. *)
Fixpoint at_most_one_from (ds ms : list addr) (l : list Event) : bool :=
  (length ds <=? 1)%nat && (length ms <=? 1)%nat &&
  match l with
  | [] => true
  | e :: r => at_most_one_from (step_devices ds e) (step_modules ms e) r
  end.

Definition at_most_one_active (l : list Event) : bool := at_most_one_from [] [] l.

Definition devices_after (ds : list addr) (l : list Event) : list addr :=
  fold_left step_devices l ds.
Definition modules_after (ms : list addr) (l : list Event) : list addr :=
  fold_left step_modules l ms.

(** The active list holds nothing, or exactly what the field points to. *)
Definition held_by (p : ptr) (l : list addr) : Prop :=
  l = [] \/ exists a, p = Some a /\ l = [a].

(** Events that neither create nor release anything. *)
Definition passive (e : Event) : bool :=
  match e with
  | Forward _ _ | Cerr _ => true
  | _ => false
  end.

(** ** Lifetimes of the objects *)

(** What a forwarding member returns when the device [b] answers: the
    configured value from a query, nothing from the rest. *)
Definition device_answer (c : Call) (b : Backend) : Value :=
  match c with
  | c_get_block_size => VInt (block_size b)
  | c_get_queue_depth => VInt (queue_depth b)
  | c_get_thread_count => VInt (thread_count b)
  | c_get_single_submit => VBool (single_submit b)
  | c_get_overlap_events => VBool (overlap_events b)
  | _ => VVoid
  end.

(** Whether the module for device type [s] exists and exports the factory. *)
Definition resolves (s : string) (w : World) : bool :=
  match lookup_module s w with
  | Some (Some lib) => match create_device lib with Some _ => true | None => false end
  | _ => false
  end.

(** A sequence of calls on a [Trampoline] in which [load_device] fails only
    while nothing is loaded; [loaded] tells whether a device is loaded when
    the sequence starts. *)
Fixpoint well_used (w0 : World) (loaded : bool) (l : list Action) : bool :=
  match l with
  | [] => true
  | a_call _ :: r => well_used w0 loaded r
  | a_load_device s :: r =>
      if resolves s w0 then well_used w0 true r
      else negb loaded && well_used w0 false r
  end.

(** A caller's use of an [aio_handle], the bound [DeepSpeedAIOTrampoline]. *)
Definition handle_perform (NVMEDevice : Backend) (a : Action)
    : M DeepSpeedAIOTrampoline.t Value :=
  match a with
  | a_load_device s => void_ (DeepSpeedAIOTrampoline.load_device NVMEDevice s)
  | a_call c => DeepSpeedAIOTrampoline.run c
  end.

Fixpoint handle_perform_all (NVMEDevice : Backend) (l : list Action)
    : M DeepSpeedAIOTrampoline.t (list Value) :=
  match l with
  | [] => mret []
  | a :: r =>
      v ← handle_perform NVMEDevice a;
      vs ← handle_perform_all NVMEDevice r;
      mret (v :: vs)
  end.

(** The lines [DeepSpeedAIOTrampoline::load_device] writes for the device
    types of a sequence that are not ["nvme"], and the number of loads that
    are. *)
Definition unknown_type_lines (l : list Action) : list string :=
  flat_map (fun a => match a with
                     | a_load_device s =>
                         if String.eqb s "nvme" then []
                         else ["Unknown device type: " +:+ s +:+ nl]
                     | a_call _ => []
                     end) l.

Fixpoint nvme_loads (l : list Action) : nat :=
  match l with
  | [] => 0%nat
  | a_load_device s :: r => ((if String.eqb s "nvme" then 1 else 0) + nvme_loads r)%nat
  | a_call _ :: r => nvme_loads r
  end.

(** What holds of a [Trampoline] [t] built in the world [w0] while it is
    used well: it is unloaded, with the heap and the open modules as in [w0],
    or it owns one device and one module beyond those of [w0]. *)
Definition in_use (w0 : World) (loaded : bool) (t : Trampoline.t) (w : World) : Prop :=
  cwd w = cwd w0 /\ files w = files w0 /\ (next w0 <= next w)%positive /\
  if loaded then
    exists d h b lib,
      t = Trampoline.mk (Some d) (Some h) /\
      heap w = <[d := b]> (heap w0) /\ heap w0 !! d = None /\
      modules w = <[h := lib]> (modules w0) /\ modules w0 !! h = None
  else
    t = Trampoline.mk None None /\ heap w = heap w0 /\ modules w = modules w0.

(** ** Uses of the module's standalone functions *)

Inductive Request :=
| r_aio_write (buffer : Tensor) (filename : string) (validate : bool)
| r_aio_read (buffer : Tensor) (filename : string) (validate : bool)
| r_deepspeed_memcpy (dest src : Tensor)
| r_load_device (device_type : string).

Definition serve (NVMEDevice : Backend) (r : Request) : World -> outcome unit unit :=
  match r with
  | r_aio_write b f v => py_ds_aio.aio_write NVMEDevice b f v
  | r_aio_read b f v => py_ds_aio.aio_read NVMEDevice b f v
  | r_deepspeed_memcpy d s => py_ds_aio.deepspeed_memcpy NVMEDevice d s
  | r_load_device s => py_ds_aio.load_device NVMEDevice s
  end.

Fixpoint serve_all (NVMEDevice : Backend) (l : list Request) (w : World)
    : outcome unit unit :=
  match l with
  | [] => Done tt tt w
  | r :: rest =>
      match serve NVMEDevice r w with
      | Done _ _ w' => serve_all NVMEDevice rest w'
      | Thrown _ w' => Thrown tt w'
      | Undefined u => Undefined u
      end
  end.

(** The device call a request asks for, if any, and whether it is a load of
    ["nvme"]. *)
Definition requested_call (r : Request) : list Call :=
  match r with
  | r_aio_write b f v => [c_aio_write b f v]
  | r_aio_read b f v => [c_aio_read b f v]
  | r_deepspeed_memcpy d s => [c_deepspeed_memcpy d s]
  | r_load_device _ => []
  end.

Definition loads_nvme (r : Request) : nat :=
  match r with
  | r_load_device s => if String.eqb s "nvme" then 1%nat else 0%nat
  | _ => 0%nat
  end.

(** Whether a string holds a NUL character. *)
Fixpoint has_nul (s : string) : bool :=
  match s with
  | EmptyString => false
  | String c r => Ascii.eqb c Ascii.zero || has_nul r
  end.

(** The object and the world [Trampoline("nvme")] leaves when built in
    [reload_world], and the same world with a working directory that can no
    longer be read. *)
Definition nvme_loaded : Trampoline.t :=
  Trampoline.mk (Some 2%positive) (Some 1%positive).

Definition nvme_loaded_world : World :=
  mkWorld (Some "/opt/ds") (files reload_world)
    (<[2%positive := demo_backend]> ∅)
    (<[1%positive := mkLibrary (Some demo_backend)]> ∅)
    None 3%positive
    [Dlopen "/opt/ds/deepspeed/ops/plugins/nvme_op.so" (Some 1%positive);
     Dlsym 1%positive "create_device" true; New 2%positive].


(** The line a forwarding member of [Trampoline] writes when [device] is
    null, as the source spells it. *)
Definition no_device_line (c : Call) : string :=
  match c with
  | c_aio_read _ _ _ => "No device loaded for aio_read" +:+ nl
  | c_aio_write _ _ _ => "No device loaded for aio_write" +:+ nl
  | c_deepspeed_memcpy _ _ => "No device loaded for deepspeed_memcpy" +:+ nl
  | c_get_block_size => "No device loaded for get_block_size" +:+ nl
  | c_get_queue_depth => "No device loaded for get_queue_depth" +:+ nl
  | c_get_single_submit => "No device loaded for get_single_submit" +:+ nl
  | c_get_overlap_events => "No device loaded for get_overlap_events" +:+ nl
  | c_get_thread_count => "No device loaded for get_thread_count" +:+ nl
  | c_read _ _ _ => "No device loaded for read" +:+ nl
  | c_write _ _ _ => "No device loaded for write" +:+ nl
  | c_pread _ _ _ _ => "No device loaded for pread" +:+ nl
  | c_pwrite _ _ _ _ => "No device loaded for pwrite" +:+ nl
  | c_sync_pread _ _ => "No device loaded for sync_pread" +:+ nl
  | c_sync_pwrite _ _ => "No device loaded for sync_pwrite" +:+ nl
  | c_async_pread _ _ => "No device loaded for async_pread" +:+ nl
  | c_async_pwrite _ _ => "No device loaded for async_pwrite" +:+ nl
  | c_new_cpu_locked_tensor _ _ => "No device loaded for new_cpu_locked_tensor" +:+ nl
  | c_free_cpu_locked_tensor _ => "No device loaded for free_cpu_locked_tensor" +:+ nl
  | c_wait => "No device loaded for wait" +:+ nl
  end.

(** The failure a call made on an unloaded [Trampoline] reports: a load
    reports why the module did not resolve, a forwarding member that no
    device is loaded. *)
Definition reported (w : World) (a : Action) : option FailureKind :=
  match a with
  | a_load_device s =>
      match lookup_module s w with
      | Some None => Some ModuleOpenFailure
      | Some (Some _) => Some MissingEntryPoint
      | None => None
      end
  | a_call _ => Some NoDeviceLoaded
  end.

(** * Properties *)

(** ** Proof support *)

Ltac unmonad_in H :=
  unfold mbind, mret, M_bind, M_ret, bind, ret in H.

Ltac unmonad :=
  unfold mbind, mret, M_bind, M_ret, bind, ret, if_set, cerr, dlerror,
    current_path, Trampoline.get_device, Trampoline.get_handle,
    Trampoline.set_device, Trampoline.set_handle.

Lemma teardown_steps {A} (k : M Trampoline.t A) t w :
  owns t w ->
  (d ← Trampoline.get_device; if_set d delete_;;
   h ← Trampoline.get_handle; if_set h dlclose;; k) t w
  = k t (released t w).
Proof.
  intros [Hd Hh]. destruct t as [d h]. unmonad. simpl in *.
  unfold released, release_events; simpl.
  destruct d as [d|], h as [h|]; simpl in *.
  - destruct Hd as [b Hb], Hh as [l Hl].
    unfold delete_. rewrite Hb. simpl.
    unfold dlclose. simpl. rewrite Hl. simpl.
    unfold emit, set_modules, set_heap; simpl. rewrite <- app_assoc. reflexivity.
  - destruct Hd as [b Hb]. unfold delete_. rewrite Hb. reflexivity.
  - destruct Hh as [l Hl]. unfold dlclose. rewrite Hl. reflexivity.
  - rewrite app_nil_r. destruct w; reflexivity.
Qed.

Lemma load_device_released s t w :
  owns t w ->
  Trampoline.load_device s t w = open_and_create s t (released t w).
Proof. intros H. apply (teardown_steps (open_and_create s) t w H). Qed.

Lemma lookup_module_readable s w r :
  lookup_module s w = Some r ->
  exists here,
    cwd w = Some here /\
    files w !! c_str (Trampoline.lib_path here s) = r /\
    loader_path s w = c_str (Trampoline.lib_path here s).
Proof.
  unfold lookup_module, loader_path, working_directory.
  destruct (cwd w) as [here|]; [|discriminate].
  intros [= <-]. exists here. repeat split.
Qed.

Lemma loader_path_same s w w0 :
  cwd w = cwd w0 -> loader_path s w = loader_path s w0.
Proof. intros Hc. unfold loader_path, working_directory. rewrite Hc. reflexivity. Qed.

Lemma lookup_module_same s w w0 :
  cwd w = cwd w0 -> files w = files w0 -> lookup_module s w = lookup_module s w0.
Proof.
  intros Hc Hf. unfold lookup_module, loader_path, working_directory.
  rewrite Hc, Hf. reflexivity.
Qed.

Lemma resolution_cases s w :
  is_Some (cwd w) ->
  (exists b, loadable s b w) \/ symbol_missing s w \/ open_fails s w.
Proof.
  intros [here Hc]. unfold loadable, symbol_missing, open_fails, lookup_module.
  rewrite Hc. destruct (files w !! loader_path s w) as [[[b|]]|].
  - left. exists b. reflexivity.
  - right. left. reflexivity.
  - right. right. reflexivity.
Qed.

Lemma open_and_create_unreadable s t w :
  cwd w = None -> open_and_create s t w = Thrown t w.
Proof. intros Hc. unfold open_and_create. unmonad. rewrite Hc. reflexivity. Qed.

Lemma open_and_create_open_fails s t w :
  open_fails s w ->
  exists w',
    open_and_create s t w = Done tt (Trampoline.mk (Trampoline.device t) None) w' /\
    heap w' = heap w /\ modules w' = modules w /\
    cwd w' = cwd w /\ files w' = files w /\ next w' = next w /\
    log w' = log w ++ [Dlopen (loader_path s w) None;
                        Cerr (open_failure_line (loader_path s w))].
Proof.
  intros Hf. destruct (lookup_module_readable _ _ _ Hf) as (here & Hc & Hfile & ->).
  unfold open_and_create. unmonad. rewrite Hc. unfold dlopen. rewrite Hfile. simpl.
  eexists. split; [reflexivity|]. simpl.
  repeat split; try exact Hc. rewrite <- app_assoc. reflexivity.
Qed.

Lemma open_and_create_symbol_missing s t w :
  symbol_missing s w ->
  exists w',
    open_and_create s t w = Done tt (Trampoline.mk (Trampoline.device t) None) w' /\
    heap w' = heap w /\ modules w' = delete (next w) (modules w) /\
    cwd w' = cwd w /\ files w' = files w /\ next w' = Pos.succ (next w) /\
    log w' = log w ++ [Dlopen (loader_path s w) (Some (next w));
                        Dlsym (next w) "create_device" false;
                        Cerr symbol_failure_line;
                        Dlclose (next w)].
Proof.
  intros Hf. destruct (lookup_module_readable _ _ _ Hf) as (here & Hc & Hfile & ->).
  unfold open_and_create. unmonad. rewrite Hc. unfold dlopen. rewrite Hfile. simpl.
  unfold dlsym. simpl. rewrite lookup_insert_eq. simpl.
  unfold dlclose. simpl. rewrite lookup_insert_eq. simpl.
  eexists. split; [reflexivity|]. simpl.
  repeat split; try exact Hc.
  - apply delete_insert_eq.
  - rewrite <- !app_assoc. reflexivity.
Qed.

Lemma open_and_create_loadable s b t w :
  loadable s b w ->
  exists w',
    open_and_create s t w
      = Done tt (Trampoline.mk (Some (Pos.succ (next w))) (Some (next w))) w' /\
    heap w' = <[Pos.succ (next w) := b]> (heap w) /\
    modules w' = <[next w := mkLibrary (Some b)]> (modules w) /\
    cwd w' = cwd w /\ files w' = files w /\ next w' = Pos.succ (Pos.succ (next w)) /\
    log w' = log w ++ [Dlopen (loader_path s w) (Some (next w));
                        Dlsym (next w) "create_device" true;
                        New (Pos.succ (next w))].
Proof.
  intros Hf. destruct (lookup_module_readable _ _ _ Hf) as (here & Hc & Hfile & ->).
  unfold open_and_create. unmonad. rewrite Hc. unfold dlopen. rewrite Hfile. simpl.
  unfold dlsym. simpl. rewrite lookup_insert_eq. simpl.
  unfold call_factory, new_. unmonad. simpl.
  eexists. split; [reflexivity|]. simpl.
  repeat split; try exact Hc. rewrite <- !app_assoc. reflexivity.
Qed.

Lemma without_fresh {X} (p : ptr) (m : gmap addr X) (a : addr) :
  m !! a = None -> without p m !! a = None.
Proof.
  intros H. destruct p as [q|]; simpl; [|exact H].
  destruct (decide (q = a)) as [->|Hne].
  - apply lookup_delete_eq.
  - rewrite lookup_delete_ne; [exact H|exact Hne].
Qed.

Lemma fresh_next w : fresh w -> heap w !! next w = None /\ modules w !! next w = None.
Proof. intros H. apply H. reflexivity. Qed.

(** ** Loading *)

(** C1 (as amended): [load_device] releases the previous device and module
    first and opens the new module afterwards.  A load that fails, by a
    module that cannot be opened or by a missing factory entry point, returns
    with a null handle, with the previous device deleted and the previous
    module closed, and with no module left open for the trampoline; from the
    unloaded state it changes neither the object nor the heap nor the open
    modules.  A load that succeeds has released the previous pair before it
    opens the module and constructs the device. *)
Theorem load_device_tears_down_first (s : string) (t : Trampoline.t) (w : World) :
  owns t w -> fresh w ->
  (open_fails s w \/ symbol_missing s w ->
   exists t' w' r evs,
     Trampoline.load_device s t w = Done tt t' w' /\
     Trampoline.handle t' = None /\
     heap w' = without (Trampoline.device t) (heap w) /\
     modules w' = without (Trampoline.handle t) (modules w) /\
     log w' = log w ++ release_events t
                    ++ Dlopen (loader_path s w) r :: evs /\
     (Trampoline.device t = None -> Trampoline.handle t = None ->
      t' = t /\ heap w' = heap w /\ modules w' = modules w)) /\
  (forall b, loadable s b w ->
   exists d' h' w',
     Trampoline.load_device s t w = Done tt (Trampoline.mk (Some d') (Some h')) w' /\
     heap w' = <[d' := b]> (without (Trampoline.device t) (heap w)) /\
     modules w' = <[h' := mkLibrary (Some b)]> (without (Trampoline.handle t) (modules w)) /\
     log w' = log w ++ release_events t
                    ++ [Dlopen (loader_path s w) (Some h');
                        Dlsym h' "create_device" true; New d']).
Proof.
  intros Hown Hfresh.
  destruct (fresh_next w Hfresh) as [_ Hm].
  split.
  - intros [Hf|Hf].
    + destruct (open_and_create_open_fails s t (released t w) Hf)
        as (w' & Hrun & Hh & Hmod & _ & _ & _ & Hlog).
      exists (Trampoline.mk (Trampoline.device t) None), w', None, 
        [Cerr (open_failure_line (loader_path s w))].
      rewrite (load_device_released s t w Hown).
      repeat split; try assumption.
      * rewrite Hlog. simpl. rewrite <- app_assoc. reflexivity.
      * destruct t as [d h]; simpl in *; congruence.
      * rewrite Hh. simpl. intros. destruct t; simpl in *; subst; reflexivity.
      * rewrite Hmod. simpl. intros. destruct t; simpl in *; subst; reflexivity.
    + destruct (open_and_create_symbol_missing s t (released t w) Hf)
        as (w' & Hrun & Hh & Hmod & _ & _ & _ & Hlog).
      assert (Hm' : modules w' = without (Trampoline.handle t) (modules w)).
      { rewrite Hmod. simpl. apply delete_id. apply without_fresh, Hm. }
      exists (Trampoline.mk (Trampoline.device t) None), w', (Some (next w)),
        [Dlsym (next w) "create_device" false; Cerr symbol_failure_line; Dlclose (next w)].
      rewrite (load_device_released s t w Hown).
      repeat split; try assumption.
      * rewrite Hlog. simpl. rewrite <- app_assoc. reflexivity.
      * destruct t as [d h]; simpl in *; congruence.
      * rewrite Hh. simpl. intros. destruct t; simpl in *; subst; reflexivity.
      * rewrite Hm'. intros. destruct t; simpl in *; subst; reflexivity.
  - intros b Hl.
    destruct (open_and_create_loadable s b t (released t w) Hl)
      as (w' & Hrun & Hh & Hmod & _ & _ & _ & Hlog).
    exists (Pos.succ (next w)), (next w), w'.
    rewrite (load_device_released s t w Hown).
    repeat split; try assumption.
    rewrite Hlog. simpl. rewrite <- app_assoc. reflexivity.
Qed.

Lemma owns_unloaded w : owns (Trampoline.mk None None) w.
Proof. split; exact I. Qed.

Lemma load_device_tears_down_first_witness :
  owns nvme_loaded nvme_loaded_world /\ fresh nvme_loaded_world /\
  open_fails "null" nvme_loaded_world /\
  loadable "gds" gds_backend nvme_loaded_world /\
  (exists t' w' r evs,
     Trampoline.load_device "null" nvme_loaded nvme_loaded_world = Done tt t' w' /\
     Trampoline.handle t' = None /\
     heap w' = delete 2%positive (heap nvme_loaded_world) /\
     modules w' = delete 1%positive (modules nvme_loaded_world) /\
     log w' = log nvme_loaded_world ++ [Delete 2%positive; Dlclose 1%positive]
                ++ Dlopen "/opt/ds/deepspeed/ops/plugins/null_op.so" r :: evs) /\
  (exists d' h' w',
     Trampoline.load_device "gds" nvme_loaded nvme_loaded_world
     = Done tt (Trampoline.mk (Some d') (Some h')) w' /\
     heap w' = <[d' := gds_backend]> (delete 2%positive (heap nvme_loaded_world)) /\
     modules w' = <[h' := mkLibrary (Some gds_backend)]>
                    (delete 1%positive (modules nvme_loaded_world)) /\
     log w' = log nvme_loaded_world ++ [Delete 2%positive; Dlclose 1%positive]
                ++ [Dlopen "/opt/ds/deepspeed/ops/plugins/gds_op.so" (Some h');
                    Dlsym h' "create_device" true; New d']).
Proof.
  assert (Ho : owns nvme_loaded nvme_loaded_world)
    by (split; vm_compute; eexists; reflexivity).
  assert (Hf : fresh nvme_loaded_world).
  { intros a Ha. simpl in Ha. split; simpl; rewrite lookup_insert_ne by lia; apply lookup_empty. }
  assert (Hn : open_fails "null" nvme_loaded_world) by (vm_compute; reflexivity).
  assert (Hl : loadable "gds" gds_backend nvme_loaded_world) by (vm_compute; reflexivity).
  destruct (load_device_tears_down_first "null" _ _ Ho Hf) as [Hfail _].
  destruct (load_device_tears_down_first "gds" _ _ Ho Hf) as [_ Hok].
  split; [exact Ho|]. split; [exact Hf|]. split; [exact Hn|]. split; [exact Hl|].
  split.
  - destruct (Hfail (or_introl Hn)) as (t' & w' & r & evs & H1 & H2 & H3 & H4 & H5 & _).
    exists t', w', r, evs. repeat split; assumption.
  - exact (Hok gds_backend Hl).
Defined.

(** C1 (counterexample): with the [nvme] backend loaded, a [load_device]
    for a device type without a module fails to open the module, and the
    state is not what it was: the device that was active is deleted and its
    module is closed. *)
Lemma failed_load_discards_previous_device :
  exists w1 w2,
    Trampoline.construct "nvme" demo_world
      = Done tt (Trampoline.mk (Some 2%positive) (Some 1%positive)) w1 /\
    open_fails "null" w1 /\
    Trampoline.load_device "null" (Trampoline.mk (Some 2%positive) (Some 1%positive)) w1
      = Done tt (Trampoline.mk (Some 2%positive) None) w2 /\
    heap w1 !! 2%positive = Some demo_backend /\
    heap w2 !! 2%positive = None /\
    modules w1 !! 1%positive = Some (mkLibrary (Some demo_backend)) /\
    modules w2 !! 1%positive = None.
Proof.
  eexists. eexists.
  split; [vm_compute; reflexivity|].
  split; [vm_compute; reflexivity|].
  split; [vm_compute; reflexivity|].
  repeat split; vm_compute; reflexivity.
Qed.

(** ** Dispatch without a device *)

Lemma forwards_app l1 l2 : forwards (l1 ++ l2) = forwards l1 ++ forwards l2.
Proof. unfold forwards. apply flat_map_app. Qed.

Lemma Trampoline_run_no_device c t w :
  Trampoline.device t = None ->
  Trampoline.run c t w = Done (no_device_value c) t (emit (Cerr (Trampoline.no_device c)) w).
Proof.
  intros H. destruct t as [d h]. simpl in H. subst d.
  destruct c; reflexivity.
Qed.

Lemma DeepSpeedAIOTrampoline_run_no_device c t w :
  DeepSpeedAIOTrampoline.device t = None ->
  DeepSpeedAIOTrampoline.run c t w
  = Done (no_device_value c) t (emit (Cerr DeepSpeedAIOTrampoline.no_device) w).
Proof.
  intros H. destruct t as [d]. simpl in H. subst d.
  destruct c; reflexivity.
Qed.

Lemma idle_since_refl w : idle_since w w.
Proof. repeat split. reflexivity. Qed.

Lemma idle_since_fresh w0 w : fresh w0 -> idle_since w0 w -> fresh w.
Proof.
  intros Hf (_ & _ & Hh & Hm & _ & Hn) a Ha.
  rewrite Hh, Hm. apply Hf. etransitivity; eassumption.
Qed.

(** ** How failures are reported *)

Lemma cerr_lines_app l1 l2 : cerr_lines (l1 ++ l2) = cerr_lines l1 ++ cerr_lines l2.
Proof. unfold cerr_lines. apply flat_map_app. Qed.

Lemma cerr_lines_release t : cerr_lines (release_events t) = [].
Proof. destruct t as [[d|] [h|]]; reflexivity. Qed.

Lemma released_log t w : log (released t w) = log w ++ release_events t.
Proof. reflexivity. Qed.

(** C3 (counterexample): [load_device] returns [void], so the value the
    caller receives is the same after a load that failed to open the module
    and after a load that succeeded, and the same from [aio_read] without a
    device and with one; no reading of the returned value separates the
    failure from the success. *)
Lemma failure_is_not_a_returned_value :
  (~ exists classify : unit -> bool,
       (forall r t' w', Trampoline.construct "null" demo_world = Done r t' w' ->
                        classify r = true) /\
       (forall r t' w', Trampoline.construct "nvme" demo_world = Done r t' w' ->
                        classify r = false)) /\
  (~ exists classify : unit -> bool,
       (forall r t' w',
          and_then (Trampoline.construct "null" demo_world)
                   (Trampoline.aio_read demo_tensor "f" false) = Done r t' w' ->
          classify r = true) /\
       (forall r t' w',
          and_then (Trampoline.construct "nvme" demo_world)
                   (Trampoline.aio_read demo_tensor "f" false) = Done r t' w' ->
          classify r = false)).
Proof.
  split.
  - intros (f & Hbad & Hok).
    assert (E1 : exists t w, Trampoline.construct "null" demo_world = Done tt t w)
      by (eexists; eexists; vm_compute; reflexivity).
    assert (E2 : exists t w, Trampoline.construct "nvme" demo_world = Done tt t w)
      by (eexists; eexists; vm_compute; reflexivity).
    destruct E1 as (t1 & w1 & E1), E2 as (t2 & w2 & E2).
    specialize (Hbad _ _ _ E1). specialize (Hok _ _ _ E2). congruence.
  - intros (f & Hbad & Hok).
    assert (E1 : exists t w,
               and_then (Trampoline.construct "null" demo_world)
                        (Trampoline.aio_read demo_tensor "f" false) = Done tt t w)
      by (eexists; eexists; vm_compute; reflexivity).
    assert (E2 : exists t w,
               and_then (Trampoline.construct "nvme" demo_world)
                        (Trampoline.aio_read demo_tensor "f" false) = Done tt t w)
      by (eexists; eexists; vm_compute; reflexivity).
    destruct E1 as (t1 & w1 & E1), E2 as (t2 & w2 & E2).
    specialize (Hbad _ _ _ E1). specialize (Hok _ _ _ E2). congruence.
Qed.

(** C3 (as amended): the failures the trampoline detects itself do not stop
    the process and are reported on [std::cerr] only.  From a state whose
    pointers are sound, a [load_device] that cannot open the module or cannot
    find the factory entry point returns normally after writing one line, and
    a forwarding member without a device returns normally after writing one
    line; the text of the line tells the three kinds apart.  The caller
    receives no error value: [load_device] returns the same [void] when it
    succeeds, having written nothing. *)
Theorem failures_are_printed_not_returned :
  (forall s t w,
     owns t w -> open_fails s w ->
     exists t' w' line,
       Trampoline.load_device s t w = Done tt t' w' /\
       cerr_lines (log w') = cerr_lines (log w) ++ [line] /\
       diagnose line = Some ModuleOpenFailure) /\
  (forall s t w,
     owns t w -> symbol_missing s w ->
     exists t' w' line,
       Trampoline.load_device s t w = Done tt t' w' /\
       cerr_lines (log w') = cerr_lines (log w) ++ [line] /\
       diagnose line = Some MissingEntryPoint) /\
  (forall c t w,
     Trampoline.device t = None ->
     exists w' line,
       Trampoline.run c t w = Done (no_device_value c) t w' /\
       cerr_lines (log w') = cerr_lines (log w) ++ [line] /\
       diagnose line = Some NoDeviceLoaded) /\
  (forall s b t w,
     owns t w -> loadable s b w ->
     exists t' w',
       Trampoline.load_device s t w = Done tt t' w' /\
       cerr_lines (log w') = cerr_lines (log w)).
Proof.
  split; [|split; [|split]].
  - intros s t w Hown Hf.
    destruct (open_and_create_open_fails s t (released t w) Hf)
      as (w' & Hrun & _ & _ & _ & _ & _ & Hlog).
    exists (Trampoline.mk (Trampoline.device t) None), w',
      (open_failure_line (loader_path s w)).
    rewrite (load_device_released s t w Hown).
    split; [exact Hrun|]. split; [|reflexivity].
    rewrite Hlog, released_log, !cerr_lines_app, cerr_lines_release.
    rewrite app_nil_r. reflexivity.
  - intros s t w Hown Hf.
    destruct (open_and_create_symbol_missing s t (released t w) Hf)
      as (w' & Hrun & _ & _ & _ & _ & _ & Hlog).
    exists (Trampoline.mk (Trampoline.device t) None), w', symbol_failure_line.
    rewrite (load_device_released s t w Hown).
    split; [exact Hrun|]. split; [|reflexivity].
    rewrite Hlog, released_log, !cerr_lines_app, cerr_lines_release.
    rewrite app_nil_r. reflexivity.
  - intros c t w Hd.
    exists (emit (Cerr (Trampoline.no_device c)) w), (Trampoline.no_device c).
    split; [apply Trampoline_run_no_device, Hd|].
    split; [simpl; rewrite cerr_lines_app; reflexivity|].
    destruct c; reflexivity.
  - intros s b t w Hown Hl.
    destruct (open_and_create_loadable s b t (released t w) Hl)
      as (w' & Hrun & _ & _ & _ & _ & _ & Hlog).
    exists (Trampoline.mk (Some (Pos.succ (next w))) (Some (next w))), w'.
    rewrite (load_device_released s t w Hown).
    split; [exact Hrun|].
    rewrite Hlog, released_log, !cerr_lines_app, cerr_lines_release.
    rewrite app_nil_r. simpl. rewrite app_nil_r. reflexivity.
Qed.

Lemma failures_are_printed_not_returned_witness :
  owns (Trampoline.mk None None) demo_world /\
  open_fails "null" demo_world /\
  exists t' w' line,
    Trampoline.load_device "null" (Trampoline.mk None None) demo_world = Done tt t' w' /\
    cerr_lines (log w') = cerr_lines (log demo_world) ++ [line] /\
    diagnose line = Some ModuleOpenFailure.
Proof.
  assert (Ho : owns (Trampoline.mk None None) demo_world) by (split; exact I).
  assert (Hn : open_fails "null" demo_world) by (vm_compute; reflexivity).
  split; [exact Ho|]. split; [exact Hn|].
  destruct failures_are_printed_not_returned as (H & _).
  exact (H "null" _ demo_world Ho Hn).
Defined.

(** ** The resolver *)

Lemma append_assoc (a b c : string) : (a +:+ b) +:+ c = a +:+ (b +:+ c).
Proof.
  induction a as [|x a IH]; [reflexivity|].
  change (String x ((a +:+ b) +:+ c) = String x (a +:+ (b +:+ c))).
  rewrite IH. reflexivity.
Qed.

Lemma has_filename_append (p q : string) :
  q <> EmptyString -> has_filename (p +:+ q) = has_filename q.
Proof.
  intros Hq. induction p as [|c p IH]; [reflexivity|].
  simpl. destruct (p +:+ q) eqn:E.
  - destruct p; simpl in E; [contradiction|discriminate].
  - exact IH.
Qed.

Lemma path_append_relative_has_filename (p q : string) :
  is_absolute q = false -> has_filename q = true -> has_filename (p // q) = true.
Proof.
  intros Ha Hq. unfold path_append. rewrite Ha.
  assert (Hne : q <> EmptyString) by (destruct q; [discriminate|discriminate]).
  destruct (has_filename p).
  - rewrite has_filename_append.
    + simpl. destruct q; [contradiction|exact Hq].
    + discriminate.
  - rewrite has_filename_append; assumption.
Qed.

Lemma so_directory_has_filename (cwd : string) :
  has_filename (Trampoline.so_directory cwd) = true.
Proof.
  unfold Trampoline.so_directory.
  apply path_append_relative_has_filename; reflexivity.
Qed.

Lemma is_absolute_append (s q : string) :
  is_absolute q = false -> is_absolute (s +:+ q) = is_absolute s.
Proof. intros Hq. destruct s; [exact Hq|reflexivity]. Qed.

Lemma load_device_reaches_loader s t w :
  owns t w -> is_Some (cwd w) ->
  exists t' w' r evs,
    Trampoline.load_device s t w = Done tt t' w' /\
    log w' = log w ++ release_events t
                   ++ Dlopen (loader_path s w) r :: evs.
Proof.
  intros Hown Hcwd. rewrite (load_device_released s t w Hown).
  destruct (resolution_cases s w Hcwd) as [(b & E)|[E|E]].
  - destruct (open_and_create_loadable s b t (released t w) E)
      as (w' & Hrun & _ & _ & _ & _ & _ & Hlog).
    do 4 eexists. split; [exact Hrun|].
    rewrite Hlog. simpl. rewrite <- app_assoc. reflexivity.
  - destruct (open_and_create_symbol_missing s t (released t w) E)
      as (w' & Hrun & _ & _ & _ & _ & _ & Hlog).
    do 4 eexists. split; [exact Hrun|].
    rewrite Hlog. simpl. rewrite <- app_assoc. reflexivity.
  - destruct (open_and_create_open_fails s t (released t w) E)
      as (w' & Hrun & _ & _ & _ & _ & _ & Hlog).
    do 4 eexists. split; [exact Hrun|].
    rewrite Hlog. simpl. rewrite <- app_assoc. reflexivity.
Qed.

Lemma c_str_without_nul (s : string) : has_nul s = false -> c_str s = s.
Proof.
  induction s as [|c r IH]; [reflexivity|].
  simpl. destruct (Ascii.eqb c Ascii.zero); [discriminate|].
  simpl. intros H. rewrite (IH H). reflexivity.
Qed.

Lemma has_nul_append (a b : string) : has_nul (a +:+ b) = has_nul a || has_nul b.
Proof.
  induction a as [|c r IH]; [reflexivity|].
  change (Ascii.eqb c Ascii.zero || has_nul (r +:+ b)
          = Ascii.eqb c Ascii.zero || has_nul r || has_nul b).
  rewrite IH. apply orb_assoc.
Qed.

Lemma has_nul_path_append (p q : string) :
  has_nul p = false -> has_nul q = false -> has_nul (p // q) = false.
Proof.
  intros Hp Hq. unfold path_append.
  destruct (is_absolute q); [exact Hq|].
  destruct (has_filename p); rewrite !has_nul_append, Hp, Hq; reflexivity.
Qed.

Lemma lib_path_without_nul (here s : string) :
  has_nul here = false -> has_nul s = false ->
  has_nul (Trampoline.lib_path here s) = false.
Proof.
  intros Hh Hs. unfold Trampoline.lib_path, Trampoline.so_directory.
  repeat apply has_nul_path_append; try reflexivity; try assumption.
  rewrite has_nul_append, Hs. reflexivity.
Qed.

(** C5 (failing input): the device type ["/tmp/x"].  It begins with a
    separator, so joining it to the plugins root replaces the root: the
    module path is ["/tmp/x_op.so"], not a path under
    [deepspeed/ops/plugins], and that is the path [load_device] hands to the
    loader. *)
Lemma absolute_identifier_leaves_plugins_root :
  Trampoline.lib_path "/opt/ds" "/tmp/x" = "/tmp/x_op.so" /\
  Trampoline.lib_path "/opt/ds" "/tmp/x"
  <> Trampoline.so_directory "/opt/ds" +:+ "/" +:+ "/tmp/x" +:+ "_op.so" /\
  exists t' w',
    Trampoline.construct "/tmp/x" demo_world = Done tt t' w' /\
    log w' = [Dlopen "/tmp/x_op.so" None; Cerr (open_failure_line "/tmp/x_op.so")].
Proof.
  split; [reflexivity|]. split; [vm_compute; discriminate|].
  do 2 eexists. split; vm_compute; reflexivity.
Qed.

(** C5: what the resolver lines of [load_device] compute.  For a device
    type that does not begin with a separator the module path is the plugins
    root, [deepspeed/ops/plugins] under the working directory, followed by a
    separator, the device type and ["_op.so"].  For a device type that
    begins with a separator the root is dropped and the path is the device
    type followed by ["_op.so"]: here the code departs from the convention.
    The path is computed without consulting the modules on disk; when the
    working directory can be read, [load_device] on an object whose pointers
    are sound hands the C string of this path to the loader, and that is the
    whole path when neither the working directory nor the device type holds
    a NUL. *)
Theorem module_path_convention :
  (forall cwd s,
     is_absolute s = false ->
     Trampoline.lib_path cwd s = Trampoline.so_directory cwd +:+ "/" +:+ s +:+ "_op.so") /\
  (forall cwd s,
     is_absolute s = true ->
     Trampoline.lib_path cwd s = s +:+ "_op.so") /\
  (forall cwd,
     has_filename cwd = true ->
     Trampoline.so_directory cwd = cwd +:+ "/deepspeed/ops/plugins") /\
  (forall s t w here,
     owns t w -> cwd w = Some here ->
     exists t' w' r evs,
       Trampoline.load_device s t w = Done tt t' w' /\
       log w' = log w ++ release_events t
                      ++ Dlopen (c_str (Trampoline.lib_path here s)) r :: evs) /\
  (forall here s,
     has_nul here = false -> has_nul s = false ->
     c_str (Trampoline.lib_path here s) = Trampoline.lib_path here s).
Proof.
  split; [|split; [|split; [|split]]].
  - intros cwd s Hs. unfold Trampoline.lib_path, path_append at 1.
    rewrite is_absolute_append by reflexivity. rewrite Hs.
    rewrite so_directory_has_filename. reflexivity.
  - intros cwd s Hs. unfold Trampoline.lib_path, path_append at 1.
    rewrite is_absolute_append by reflexivity. rewrite Hs. reflexivity.
  - intros cwd Hc. unfold Trampoline.so_directory.
    unfold path_append at 3. simpl is_absolute. cbv iota. rewrite Hc.
    unfold path_append at 2. simpl is_absolute. cbv iota.
    rewrite has_filename_append by discriminate. simpl has_filename. cbv iota.
    unfold path_append. simpl is_absolute. cbv iota.
    rewrite !has_filename_append by discriminate. simpl has_filename. cbv iota.
    rewrite !append_assoc. reflexivity.
  - intros s t w here Hown Hc.
    assert (Hr : is_Some (cwd w)) by (rewrite Hc; eexists; reflexivity).
    destruct (load_device_reaches_loader s t w Hown Hr) as (t' & w' & r & evs & Hrun & Hlog).
    exists t', w', r, evs. split; [exact Hrun|].
    rewrite Hlog. unfold loader_path, working_directory. rewrite Hc. reflexivity.
  - intros here s Hh Hs. apply c_str_without_nul, lib_path_without_nul; assumption.
Qed.

Lemma module_path_convention_witness :
  (is_absolute "nvme" = false /\
   Trampoline.lib_path "/opt/ds" "nvme"
   = Trampoline.so_directory "/opt/ds" +:+ "/" +:+ "nvme" +:+ "_op.so") /\
  (is_absolute "/tmp/x" = true /\
   Trampoline.lib_path "/opt/ds" "/tmp/x" = "/tmp/x" +:+ "_op.so") /\
  (has_filename "/opt/ds" = true /\
   Trampoline.so_directory "/opt/ds" = "/opt/ds" +:+ "/deepspeed/ops/plugins") /\
  (owns nvme_loaded nvme_loaded_world /\
   cwd nvme_loaded_world = Some "/opt/ds" /\
   exists t' w' r evs,
     Trampoline.load_device "/tmp/x" nvme_loaded nvme_loaded_world = Done tt t' w' /\
     log w' = log nvme_loaded_world ++ release_events nvme_loaded
                  ++ Dlopen (c_str (Trampoline.lib_path "/opt/ds" "/tmp/x")) r :: evs) /\
  (has_nul "/opt/ds" = false /\ has_nul "nvme" = false /\
   c_str (Trampoline.lib_path "/opt/ds" "nvme") = Trampoline.lib_path "/opt/ds" "nvme").
Proof.
  assert (Hr : is_absolute "nvme" = false) by reflexivity.
  assert (Ha : is_absolute "/tmp/x" = true) by reflexivity.
  assert (Hd : has_filename "/opt/ds" = true) by reflexivity.
  assert (Ho : owns nvme_loaded nvme_loaded_world)
    by (split; vm_compute; eexists; reflexivity).
  assert (Hc : cwd nvme_loaded_world = Some "/opt/ds") by reflexivity.
  assert (Hn1 : has_nul "/opt/ds" = false) by reflexivity.
  assert (Hn2 : has_nul "nvme" = false) by reflexivity.
  destruct module_path_convention as (Hrel & Habs & Hroot & Hload & Hcstr).
  split; [split; [exact Hr|exact (Hrel "/opt/ds" "nvme" Hr)]|].
  split; [split; [exact Ha|exact (Habs "/opt/ds" "/tmp/x" Ha)]|].
  split; [split; [exact Hd|exact (Hroot "/opt/ds" Hd)]|].
  split; [split; [exact Ho|split; [exact Hc|]]|].
  - exact (Hload "/tmp/x" nvme_loaded nvme_loaded_world "/opt/ds" Ho Hc).
  - split; [exact Hn1|]. split; [exact Hn2|]. exact (Hcstr "/opt/ds" "nvme" Hn1 Hn2).
Defined.

(** ** Dispatch with a device *)

Lemma dispatch_query_live {O A} (dev : O -> ptr) msg c (f : Backend -> A * Backend)
    sentinel this d b w :
  dev this = Some d -> heap w !! d = Some b ->
  dispatch_query dev msg c f sentinel this w
  = Done (fst (f b)) this (emit (Forward d c) (set_heap (<[d := snd (f b)]> (heap w)) w)).
Proof. intros Hd Hb. unfold dispatch_query, invoke. rewrite Hd, Hb. reflexivity. Qed.

Lemma dispatch_query_null {O A} (dev : O -> ptr) msg c (f : Backend -> A * Backend)
    sentinel this w :
  dev this = None ->
  dispatch_query dev msg c f sentinel this w = Done sentinel this (emit (Cerr msg) w).
Proof. intros Hd. unfold dispatch_query. rewrite Hd. reflexivity. Qed.

Lemma dispatch_drop_live {O A} (dev : O -> ptr) msg c (f : Backend -> A * Backend)
    this d b w :
  dev this = Some d -> heap w !! d = Some b ->
  dispatch_drop dev msg c f this w
  = Done tt this (emit (Forward d c) (set_heap (<[d := snd (f b)]> (heap w)) w)).
Proof.
  intros Hd Hb. unfold dispatch_drop, invoke. rewrite Hd. unmonad. rewrite Hb. reflexivity.
Qed.

Lemma dispatch_drop_null {O A} (dev : O -> ptr) msg c (f : Backend -> A * Backend) this w :
  dev this = None ->
  dispatch_drop dev msg c f this w = Done tt this (emit (Cerr msg) w).
Proof. intros Hd. unfold dispatch_drop. rewrite Hd. reflexivity. Qed.

(** ** Waiting *)

(** C6 (counterexample): [wait] is a [void] member and drops what the
    device's [wait] returns.  With no operation outstanding the device
    reports 0 completions, with three asynchronous writes outstanding it
    reports 3, and the caller receives the same value both times; no reading
    of that value gives the count. *)
Lemma wait_returns_no_count :
  (exists t w b,
     and_then (Trampoline.construct "nvme" demo_world) three_async_writes = Done tt t w /\
     Trampoline.device t = Some 2%positive /\ heap w !! 2%positive = Some b /\
     fst (Device.wait b) = 3) /\
  (~ exists completed : unit -> Z,
       (forall r t w,
          and_then (Trampoline.construct "nvme" demo_world) Trampoline.wait = Done r t w ->
          completed r = 0) /\
       (forall r t w,
          and_then (and_then (Trampoline.construct "nvme" demo_world) three_async_writes)
                   Trampoline.wait = Done r t w ->
          completed r = 3)).
Proof.
  split.
  - do 3 eexists. split; [vm_compute; reflexivity|].
    split; [reflexivity|]. split; [vm_compute; reflexivity|]. reflexivity.
  - intros (f & H0 & H3).
    assert (E0 : exists t w,
               and_then (Trampoline.construct "nvme" demo_world) Trampoline.wait = Done tt t w)
      by (eexists; eexists; vm_compute; reflexivity).
    assert (E3 : exists t w,
               and_then (and_then (Trampoline.construct "nvme" demo_world) three_async_writes)
                        Trampoline.wait = Done tt t w)
      by (eexists; eexists; vm_compute; reflexivity).
    destruct E0 as (t0 & w0 & E0), E3 as (t3 & w3 & E3).
    specialize (H0 _ _ _ E0). specialize (H3 _ _ _ E3). congruence.
Qed.

(** C6 (as amended): [wait] with an active device makes exactly one call,
    the device's [wait], after which the device has no operation outstanding,
    and returns nothing to the caller; the object and the open modules are as
    before.  With no active device it writes "No device loaded for wait" to
    [std::cerr] and does nothing else. *)
Theorem wait_forwards_and_returns_nothing :
  (forall d h b w,
     heap w !! d = Some b ->
     exists w' b',
       Trampoline.wait (Trampoline.mk (Some d) h) w = Done tt (Trampoline.mk (Some d) h) w' /\
       log w' = log w ++ [Forward d c_wait] /\
       heap w' = <[d := b']> (heap w) /\ outstanding b' = 0%nat /\
       b' = with_outstanding 0 b /\
       modules w' = modules w) /\
  (forall t w,
     Trampoline.device t = None ->
     Trampoline.wait t w
     = Done tt t (emit (Cerr ("No device loaded for wait" +:+ nl)) w)).
Proof.
  split.
  - intros d h b w Hb.
    exists (emit (Forward d c_wait)
                 (set_heap (<[d := snd (Device.wait b)]> (heap w)) w)),
      (with_outstanding 0 b).
    split.
    + unfold Trampoline.wait, Trampoline.forward_drop.
      apply dispatch_drop_live; [reflexivity|exact Hb].
    + repeat split.
  - intros t w Hd. unfold Trampoline.wait, Trampoline.forward_drop.
    apply dispatch_drop_null. exact Hd.
Qed.

Lemma wait_forwards_and_returns_nothing_witness :
  exists w1,
    and_then (Trampoline.construct "nvme" demo_world) three_async_writes
    = Done tt (Trampoline.mk (Some 2%positive) (Some 1%positive)) w1 /\
    heap w1 !! 2%positive = Some (with_outstanding 3 demo_backend) /\
    exists w' b',
      Trampoline.wait (Trampoline.mk (Some 2%positive) (Some 1%positive)) w1
      = Done tt (Trampoline.mk (Some 2%positive) (Some 1%positive)) w' /\
      log w' = log w1 ++ [Forward 2%positive c_wait] /\
      heap w' = <[2%positive := b']> (heap w1) /\ outstanding b' = 0%nat /\
      b' = with_outstanding 0 (with_outstanding 3 demo_backend) /\
      modules w' = modules w1.
Proof.
  eexists. split; [vm_compute; reflexivity|].
  assert (Hb : heap
    (mkWorld (Some "/opt/ds") (files demo_world)
       (<[2%positive := with_outstanding 3 demo_backend]> ∅)
       (<[1%positive := mkLibrary (Some demo_backend)]> ∅) None 3%positive
       [Dlopen "/opt/ds/deepspeed/ops/plugins/nvme_op.so" (Some 1%positive);
        Dlsym 1%positive "create_device" true; New 2%positive;
        Forward 2%positive (c_async_pwrite demo_tensor "f");
        Forward 2%positive (c_async_pwrite demo_tensor "g");
        Forward 2%positive (c_async_pwrite demo_tensor "h")]) !! 2%positive
    = Some (with_outstanding 3 demo_backend)) by (vm_compute; reflexivity).
  split; [exact Hb|].
  destruct wait_forwards_and_returns_nothing as (H & _).
  exact (H 2%positive (Some 1%positive) _ _ Hb).
Defined.

(** ** Locked buffers *)

(** C7 (counterexample): [new_cpu_locked_tensor] is a [void] member and
    drops the tensor the device allocates.  Asked for 4 and for 8 elements,
    the caller receives the same value; no reading of that value gives the
    buffer. *)
Lemma new_cpu_locked_tensor_returns_no_buffer :
  (exists t w b,
     and_then (Trampoline.construct "nvme" demo_world)
              (Trampoline.new_cpu_locked_tensor 8 demo_tensor) = Done tt t w /\
     Trampoline.device t = Some 2%positive /\ heap w !! 2%positive = Some b /\
     locked_pool b = [mkTensor 1 8 4 true]) /\
  (~ exists buffer_of : unit -> Tensor,
       (forall r t w,
          and_then (Trampoline.construct "nvme" demo_world)
                   (Trampoline.new_cpu_locked_tensor 4 demo_tensor) = Done r t w ->
          numel (buffer_of r) = 4%N) /\
       (forall r t w,
          and_then (Trampoline.construct "nvme" demo_world)
                   (Trampoline.new_cpu_locked_tensor 8 demo_tensor) = Done r t w ->
          numel (buffer_of r) = 8%N)).
Proof.
  split.
  - do 3 eexists. split; [vm_compute; reflexivity|].
    split; [reflexivity|]. split; [vm_compute; reflexivity|]. reflexivity.
  - intros (f & H4 & H8).
    assert (E4 : exists t w,
               and_then (Trampoline.construct "nvme" demo_world)
                        (Trampoline.new_cpu_locked_tensor 4 demo_tensor) = Done tt t w)
      by (eexists; eexists; vm_compute; reflexivity).
    assert (E8 : exists t w,
               and_then (Trampoline.construct "nvme" demo_world)
                        (Trampoline.new_cpu_locked_tensor 8 demo_tensor) = Done tt t w)
      by (eexists; eexists; vm_compute; reflexivity).
    destruct E4 as (t4 & w4 & E4), E8 as (t8 & w8 & E8).
    specialize (H4 _ _ _ E4). specialize (H8 _ _ _ E8). congruence.
Qed.

(** C7 (as amended): with an active device, [new_cpu_locked_tensor] of
    either trampoline makes exactly one call, the device's
    [new_cpu_locked_tensor] with the same count and example, by which the
    device's pool gains a pinned buffer of that many elements with the
    example's element size; the member returns nothing to the caller. *)
Theorem new_cpu_locked_tensor_delegates :
  (forall n ex d h b w,
     heap w !! d = Some b ->
     exists w' b' buf,
       Trampoline.new_cpu_locked_tensor n ex (Trampoline.mk (Some d) h) w
       = Done tt (Trampoline.mk (Some d) h) w' /\
       log w' = log w ++ [Forward d (c_new_cpu_locked_tensor n ex)] /\
       heap w' = <[d := b']> (heap w) /\
       locked_pool b' = buf :: locked_pool b /\
       numel buf = n /\ element_size buf = element_size ex /\ is_pinned buf = true) /\
  (forall n ex d b w,
     heap w !! d = Some b ->
     exists w' b' buf,
       DeepSpeedAIOTrampoline.new_cpu_locked_tensor n ex (DeepSpeedAIOTrampoline.mk (Some d)) w
       = Done tt (DeepSpeedAIOTrampoline.mk (Some d)) w' /\
       log w' = log w ++ [Forward d (c_new_cpu_locked_tensor n ex)] /\
       heap w' = <[d := b']> (heap w) /\
       locked_pool b' = buf :: locked_pool b /\
       numel buf = n /\ element_size buf = element_size ex /\ is_pinned buf = true).
Proof.
  split.
  - intros n ex d h b w Hb.
    exists (emit (Forward d (c_new_cpu_locked_tensor n ex))
                 (set_heap (<[d := snd (Device.new_cpu_locked_tensor n ex b)]> (heap w)) w)),
      (snd (Device.new_cpu_locked_tensor n ex b)),
      (fst (Device.new_cpu_locked_tensor n ex b)).
    split.
    + unfold Trampoline.new_cpu_locked_tensor, Trampoline.forward_drop.
      apply dispatch_drop_live; [reflexivity|exact Hb].
    + repeat split.
  - intros n ex d b w Hb.
    exists (emit (Forward d (c_new_cpu_locked_tensor n ex))
                 (set_heap (<[d := snd (Device.new_cpu_locked_tensor n ex b)]> (heap w)) w)),
      (snd (Device.new_cpu_locked_tensor n ex b)),
      (fst (Device.new_cpu_locked_tensor n ex b)).
    split.
    + unfold DeepSpeedAIOTrampoline.new_cpu_locked_tensor,
        DeepSpeedAIOTrampoline.forward_drop.
      apply dispatch_drop_live; [reflexivity|exact Hb].
    + repeat split.
Qed.

Lemma new_cpu_locked_tensor_delegates_witness :
  heap one_device_world !! 2%positive = Some demo_backend /\
  exists w' b' buf,
    DeepSpeedAIOTrampoline.new_cpu_locked_tensor 8 demo_tensor
      (DeepSpeedAIOTrampoline.mk (Some 2%positive)) one_device_world
    = Done tt (DeepSpeedAIOTrampoline.mk (Some 2%positive)) w' /\
    log w' = log one_device_world ++ [Forward 2%positive (c_new_cpu_locked_tensor 8 demo_tensor)] /\
    heap w' = <[2%positive := b']> (heap one_device_world) /\
    locked_pool b' = buf :: locked_pool demo_backend /\
    numel buf = 8%N /\ element_size buf = element_size demo_tensor /\ is_pinned buf = true.
Proof.
  assert (Hb : heap one_device_world !! 2%positive = Some demo_backend)
    by (vm_compute; reflexivity).
  split; [exact Hb|].
  destruct new_cpu_locked_tensor_delegates as (_ & H).
  exact (H 8%N demo_tensor 2%positive demo_backend one_device_world Hb).
Defined.

(** ** Sentinels of the queries *)

(** C9: with no device, [get_block_size], [get_queue_depth] and
    [get_thread_count] return [-1], and [get_single_submit] and
    [get_overlap_events] return [false], in both trampolines.  A loaded
    backend whose flag is off makes the same boolean query return [false]
    too, so the returned value of a boolean query does not tell "no device"
    from a backend's answer. *)
Theorem query_sentinels :
  (forall t w,
     Trampoline.device t = None ->
     Trampoline.get_block_size t w
       = Done (-1) t (emit (Cerr ("No device loaded for get_block_size" +:+ nl)) w) /\
     Trampoline.get_queue_depth t w
       = Done (-1) t (emit (Cerr ("No device loaded for get_queue_depth" +:+ nl)) w) /\
     Trampoline.get_thread_count t w
       = Done (-1) t (emit (Cerr ("No device loaded for get_thread_count" +:+ nl)) w) /\
     Trampoline.get_single_submit t w
       = Done false t (emit (Cerr ("No device loaded for get_single_submit" +:+ nl)) w) /\
     Trampoline.get_overlap_events t w
       = Done false t (emit (Cerr ("No device loaded for get_overlap_events" +:+ nl)) w)) /\
  (forall t w,
     DeepSpeedAIOTrampoline.device t = None ->
     DeepSpeedAIOTrampoline.get_block_size t w
       = Done (-1) t (emit (Cerr ("No device loaded" +:+ nl)) w) /\
     DeepSpeedAIOTrampoline.get_queue_depth t w
       = Done (-1) t (emit (Cerr ("No device loaded" +:+ nl)) w) /\
     DeepSpeedAIOTrampoline.get_thread_count t w
       = Done (-1) t (emit (Cerr ("No device loaded" +:+ nl)) w) /\
     DeepSpeedAIOTrampoline.get_single_submit t w
       = Done false t (emit (Cerr ("No device loaded" +:+ nl)) w) /\
     DeepSpeedAIOTrampoline.get_overlap_events t w
       = Done false t (emit (Cerr ("No device loaded" +:+ nl)) w)) /\
  (forall d h b w,
     heap w !! d = Some b ->
     (single_submit b = false ->
      exists w', Trampoline.get_single_submit (Trampoline.mk (Some d) h) w
                 = Done false (Trampoline.mk (Some d) h) w' /\
                 log w' = log w ++ [Forward d c_get_single_submit]) /\
     (overlap_events b = false ->
      exists w', Trampoline.get_overlap_events (Trampoline.mk (Some d) h) w
                 = Done false (Trampoline.mk (Some d) h) w' /\
                 log w' = log w ++ [Forward d c_get_overlap_events]) /\
     (single_submit b = false ->
      exists w', DeepSpeedAIOTrampoline.get_single_submit (DeepSpeedAIOTrampoline.mk (Some d)) w
                 = Done false (DeepSpeedAIOTrampoline.mk (Some d)) w' /\
                 log w' = log w ++ [Forward d c_get_single_submit]) /\
     (overlap_events b = false ->
      exists w', DeepSpeedAIOTrampoline.get_overlap_events (DeepSpeedAIOTrampoline.mk (Some d)) w
                 = Done false (DeepSpeedAIOTrampoline.mk (Some d)) w' /\
                 log w' = log w ++ [Forward d c_get_overlap_events])).
Proof.
  split; [|split].
  - intros t w Hd. repeat split; apply dispatch_query_null; exact Hd.
  - intros t w Hd. repeat split; apply dispatch_query_null; exact Hd.
  - intros d h b w Hb. repeat split; intros Hflag; eexists; split.
    + unfold Trampoline.get_single_submit, Trampoline.forward_query.
      erewrite dispatch_query_live; [|reflexivity|exact Hb].
      simpl. rewrite Hflag. reflexivity.
    + reflexivity.
    + unfold Trampoline.get_overlap_events, Trampoline.forward_query.
      erewrite dispatch_query_live; [|reflexivity|exact Hb].
      simpl. rewrite Hflag. reflexivity.
    + reflexivity.
    + unfold DeepSpeedAIOTrampoline.get_single_submit, DeepSpeedAIOTrampoline.forward_query.
      erewrite dispatch_query_live; [|reflexivity|exact Hb].
      simpl. rewrite Hflag. reflexivity.
    + reflexivity.
    + unfold DeepSpeedAIOTrampoline.get_overlap_events, DeepSpeedAIOTrampoline.forward_query.
      erewrite dispatch_query_live; [|reflexivity|exact Hb].
      simpl. rewrite Hflag. reflexivity.
    + reflexivity.
Qed.

Lemma query_sentinels_witness :
  heap one_device_world !! 2%positive = Some demo_backend /\
  single_submit demo_backend = false /\
  (exists w', Trampoline.get_single_submit (Trampoline.mk (Some 2%positive) None) one_device_world
              = Done false (Trampoline.mk (Some 2%positive) None) w' /\
              log w' = log one_device_world ++ [Forward 2%positive c_get_single_submit]) /\
  Trampoline.get_single_submit (Trampoline.mk None None) one_device_world
  = Done false (Trampoline.mk None None)
         (emit (Cerr ("No device loaded for get_single_submit" +:+ nl)) one_device_world).
Proof.
  assert (Hb : heap one_device_world !! 2%positive = Some demo_backend)
    by (vm_compute; reflexivity).
  assert (Hs : single_submit demo_backend = false) by reflexivity.
  destruct query_sentinels as (Hnull & _ & Hlive).
  split; [exact Hb|]. split; [exact Hs|]. split.
  - destruct (Hlive 2%positive None demo_backend one_device_world Hb) as (H & _).
    exact (H Hs).
  - destruct (Hnull (Trampoline.mk None None) one_device_world eq_refl)
      as (_ & _ & _ & H & _).
    exact H.
Defined.

(** ** The two-state invariant *)

Lemma load_device_failure_keeps_device_field s d h t w :
  t = Trampoline.mk (Some d) (Some h) ->
  owns t w -> unresolvable s w ->
  exists w',
    Trampoline.load_device s t w = Done tt (Trampoline.mk (Some d) None) w' /\
    heap w' !! d = None.
Proof.
  intros -> Hown Hu.
  rewrite (load_device_released s _ w Hown).
  destruct Hu as [Hu|Hu].
  - destruct (open_and_create_open_fails s (Trampoline.mk (Some d) (Some h))
                (released (Trampoline.mk (Some d) (Some h)) w) Hu)
      as (w' & Hrun & Hh & _).
    exists w'. split; [exact Hrun|]. rewrite Hh. simpl. apply lookup_delete_eq.
  - destruct (open_and_create_symbol_missing s (Trampoline.mk (Some d) (Some h))
                (released (Trampoline.mk (Some d) (Some h)) w) Hu)
      as (w' & Hrun & Hh & _).
    exists w'. split; [exact Hrun|]. rewrite Hh. simpl. apply lookup_delete_eq.
Qed.

(** C8 (failing input): a [Trampoline] built on the [nvme] backend and then
    asked to load a device type without a module.  [load_device] deletes the
    device and closes the module, fails to open the new module and returns:
    [handle] is null, but [device] still holds the address of the deleted
    object.  The object is in neither of the two clean states, a query
    through it calls a deleted device, and its destructor deletes the device
    a second time. *)
Theorem failed_reload_leaves_dangling_device :
  exists w2,
    and_then (Trampoline.construct "nvme" demo_world) (Trampoline.load_device "null")
    = Done tt (Trampoline.mk (Some 2%positive) None) w2 /\
    heap w2 !! 2%positive = None /\
    Trampoline.get_block_size (Trampoline.mk (Some 2%positive) None) w2
    = Undefined (UseAfterFree 2%positive) /\
    Trampoline.destroy (Trampoline.mk (Some 2%positive) None) w2
    = Undefined (DoubleFree 2%positive).
Proof.
  eexists. split; [vm_compute; reflexivity|].
  split; [vm_compute; reflexivity|].
  split; vm_compute; reflexivity.
Qed.

(** ** The standalone functions of the module *)

Section Standalone.

Variable NVMEDevice : Backend.

Lemma scoped_void_call c f w :
  fresh w ->
  exists w',
    py_ds_aio.scoped NVMEDevice (DeepSpeedAIOTrampoline.forward_void c f) w
    = Done tt tt w' /\
    heap w' = heap w /\ modules w' = modules w /\
    log w' = log w ++ [New (next w); Forward (next w) c; Delete (next w)].
Proof.
  intros Hf. destruct (fresh_next w Hf) as [Hh _].
  unfold py_ds_aio.scoped, DeepSpeedAIOTrampoline.construct,
    DeepSpeedAIOTrampoline.load_device, DeepSpeedAIOTrampoline.forward_void.
  simpl. unmonad. unfold new_, DeepSpeedAIOTrampoline.set_device. simpl.
  unfold dispatch_void, invoke. simpl. rewrite lookup_insert_eq. simpl.
  unfold DeepSpeedAIOTrampoline.destroy, if_set, delete_. simpl.
  rewrite lookup_insert_eq. simpl.
  eexists. split; [reflexivity|]. simpl. repeat split.
  - rewrite delete_insert_eq, delete_insert_eq. apply delete_id, Hh.
  - rewrite <- !app_assoc. reflexivity.
Qed.

Lemma scoped_load_unknown s w :
  fresh w -> s <> "nvme" ->
  exists w',
    py_ds_aio.load_device NVMEDevice s w = Done tt tt w' /\
    heap w' = heap w /\ modules w' = modules w /\
    log w' = log w ++ [New (next w); Cerr ("Unknown device type: " +:+ s +:+ nl);
                        Delete (next w)].
Proof.
  intros Hf Hs. destruct (fresh_next w Hf) as [Hh _].
  apply String.eqb_neq in Hs.
  unfold py_ds_aio.load_device, py_ds_aio.scoped,
    DeepSpeedAIOTrampoline.construct.
  unfold DeepSpeedAIOTrampoline.load_device at 2. simpl String.eqb. cbv iota.
  unmonad. unfold new_, DeepSpeedAIOTrampoline.set_device. cbv beta iota.
  unfold DeepSpeedAIOTrampoline.load_device. rewrite Hs.
  unfold DeepSpeedAIOTrampoline.destroy, if_set, cerr, delete_. simpl.
  rewrite lookup_insert_eq. simpl.
  eexists. split; [reflexivity|]. simpl. repeat split.
  - rewrite delete_insert_eq. apply delete_id, Hh.
  - rewrite <- !app_assoc. reflexivity.
Qed.

Lemma scoped_load_nvme w :
  fresh w ->
  exists w',
    py_ds_aio.load_device NVMEDevice "nvme" w = Done tt tt w' /\
    heap w' = <[next w := NVMEDevice]> (heap w) /\ modules w' = modules w /\
    log w' = log w ++ [New (next w); New (Pos.succ (next w)); Delete (Pos.succ (next w))].
Proof.
  intros Hf.
  assert (Hs : heap w !! Pos.succ (next w) = None) by (apply Hf; lia).
  unfold py_ds_aio.load_device, py_ds_aio.scoped,
    DeepSpeedAIOTrampoline.construct, DeepSpeedAIOTrampoline.load_device.
  simpl. unmonad. unfold new_, DeepSpeedAIOTrampoline.set_device. simpl.
  unfold DeepSpeedAIOTrampoline.destroy, if_set, delete_. simpl.
  rewrite lookup_insert_eq. simpl.
  eexists. split; [reflexivity|]. simpl. repeat split.
  - rewrite delete_insert_eq. apply delete_id.
    rewrite lookup_insert_ne by lia. exact Hs.
  - rewrite <- !app_assoc. reflexivity.
Qed.

(** C10 (failing input at the last part): each standalone function builds a
    [DeepSpeedAIOTrampoline], whose constructor creates an [NVMEDevice],
    makes its one call and destroys the object.  For [aio_write], [aio_read],
    [deepspeed_memcpy] and a [load_device] of an unknown type the heap and
    the open modules are afterwards what they were.  The standalone
    [load_device("nvme")] overwrites the pointer to the constructor's device
    with a second one and deletes only the second: the first stays on the
    heap. *)
Theorem standalone_functions_are_scoped (w : World) :
  fresh w ->
  (forall buffer filename validate, exists w',
     py_ds_aio.aio_write NVMEDevice buffer filename validate w = Done tt tt w' /\
     heap w' = heap w /\ modules w' = modules w /\
     log w' = log w ++ [New (next w); Forward (next w) (c_aio_write buffer filename validate);
                         Delete (next w)]) /\
  (forall buffer filename validate, exists w',
     py_ds_aio.aio_read NVMEDevice buffer filename validate w = Done tt tt w' /\
     heap w' = heap w /\ modules w' = modules w /\
     log w' = log w ++ [New (next w); Forward (next w) (c_aio_read buffer filename validate);
                         Delete (next w)]) /\
  (forall dest src, exists w',
     py_ds_aio.deepspeed_memcpy NVMEDevice dest src w = Done tt tt w' /\
     heap w' = heap w /\ modules w' = modules w /\
     log w' = log w ++ [New (next w); Forward (next w) (c_deepspeed_memcpy dest src);
                         Delete (next w)]) /\
  (forall device_type, device_type <> "nvme" -> exists w',
     py_ds_aio.load_device NVMEDevice device_type w = Done tt tt w' /\
     heap w' = heap w /\ modules w' = modules w /\
     log w' = log w ++ [New (next w); Cerr ("Unknown device type: " +:+ device_type +:+ nl);
                         Delete (next w)]) /\
  (exists w',
     py_ds_aio.load_device NVMEDevice "nvme" w = Done tt tt w' /\
     heap w !! next w = None /\
     heap w' = <[next w := NVMEDevice]> (heap w) /\ modules w' = modules w /\
     log w' = log w ++ [New (next w); New (Pos.succ (next w)); Delete (Pos.succ (next w))]).
Proof.
  intros Hf. split; [|split; [|split; [|split]]].
  - intros. apply scoped_void_call, Hf.
  - intros. apply scoped_void_call, Hf.
  - intros. apply scoped_void_call, Hf.
  - intros s Hs. apply scoped_load_unknown; assumption.
  - destruct (scoped_load_nvme w Hf) as (w' & H1 & H2 & H3 & H4).
    exists w'. repeat split; try assumption. apply (fresh_next w Hf).
Qed.

End Standalone.

Lemma standalone_functions_are_scoped_witness :
  fresh demo_world /\
  exists w',
    py_ds_aio.load_device demo_backend "nvme" demo_world = Done tt tt w' /\
    heap demo_world !! next demo_world = None /\
    heap w' = <[next demo_world := demo_backend]> (heap demo_world) /\
    modules w' = modules demo_world /\
    log w' = log demo_world ++ [New (next demo_world); New (Pos.succ (next demo_world));
                                 Delete (Pos.succ (next demo_world))].
Proof.
  assert (Hf : fresh demo_world) by (intros a _; split; apply lookup_empty).
  split; [exact Hf|].
  destruct (standalone_functions_are_scoped demo_backend demo_world Hf) as (_ & _ & _ & _ & H).
  exact H.
Defined.

Lemma at_most_one_from_app ds ms l1 l2 :
  at_most_one_from ds ms (l1 ++ l2)
  = at_most_one_from ds ms l1
    && at_most_one_from (devices_after ds l1) (modules_after ms l1) l2.
Proof.
  revert ds ms. induction l1 as [|e l1 IH]; intros ds ms; simpl.
  - destruct l2; simpl; destruct (length ds <=? 1)%nat, (length ms <=? 1)%nat;
      simpl; reflexivity.
  - rewrite IH. unfold devices_after, modules_after. simpl.
    rewrite andb_assoc. reflexivity.
Qed.

Lemma devices_after_app ds l1 l2 :
  devices_after ds (l1 ++ l2) = devices_after (devices_after ds l1) l2.
Proof. unfold devices_after. apply fold_left_app. Qed.

Lemma modules_after_app ms l1 l2 :
  modules_after ms (l1 ++ l2) = modules_after (modules_after ms l1) l2.
Proof. unfold modules_after. apply fold_left_app. Qed.

Lemma drop_addr_same a : drop_addr a [a] = [].
Proof. unfold drop_addr. simpl. rewrite Pos.eqb_refl. reflexivity. Qed.

Lemma dispatch_void_done {O} (dev : O -> ptr) msg c f this w r this' w' :
  dispatch_void dev msg c f this w = Done r this' w' ->
  this' = this /\ exists e, log w' = log w ++ [e] /\ passive e = true.
Proof.
  unfold dispatch_void, invoke, cerr. destruct (dev this) as [d|].
  - destruct (heap w !! d) as [b|]; [|discriminate].
    intros [= _ <- <-]. split; [reflexivity|]. eexists. split; reflexivity.
  - intros [= _ <- <-]. split; [reflexivity|]. eexists. split; reflexivity.
Qed.

Lemma dispatch_query_done {O A} (dev : O -> ptr) msg c (f : Backend -> A * Backend)
    sentinel this w r this' w' :
  dispatch_query dev msg c f sentinel this w = Done r this' w' ->
  this' = this /\ exists e, log w' = log w ++ [e] /\ passive e = true.
Proof.
  unfold dispatch_query, invoke. destruct (dev this) as [d|].
  - destruct (heap w !! d) as [b|]; [|discriminate].
    intros [= _ <- <-]. split; [reflexivity|]. eexists. split; reflexivity.
  - unmonad. intros [= _ <- <-]. split; [reflexivity|]. eexists. split; reflexivity.
Qed.

Lemma dispatch_drop_done {O A} (dev : O -> ptr) msg c (f : Backend -> A * Backend)
    this w r this' w' :
  dispatch_drop dev msg c f this w = Done r this' w' ->
  this' = this /\ exists e, log w' = log w ++ [e] /\ passive e = true.
Proof.
  unfold dispatch_drop, invoke. destruct (dev this) as [d|].
  - unmonad. destruct (heap w !! d) as [b|]; [|discriminate].
    intros [= _ <- <-]. split; [reflexivity|]. eexists. split; reflexivity.
  - unfold cerr. intros [= _ <- <-]. split; [reflexivity|]. eexists. split; reflexivity.
Qed.

Lemma Trampoline_run_done c t w v t' w' :
  Trampoline.run c t w = Done v t' w' ->
  t' = t /\ exists e, log w' = log w ++ [e] /\ passive e = true.
Proof.
  destruct c; simpl; unfold void_, int_, bool_; unmonad;
    match goal with
    | |- context [match ?m t w with _ => _ end] => destruct (m t w) eqn:E
    end; try discriminate; intros [= _ <- <-];
    first [ eapply dispatch_void_done; exact E
          | eapply dispatch_query_done; exact E
          | eapply dispatch_drop_done; exact E ].
Qed.

Lemma load_device_done_owns s t w r t' w' :
  Trampoline.load_device s t w = Done r t' w' -> owns t w.
Proof.
  destruct t as [d h]. unfold Trampoline.load_device, owns, points_into.
  unmonad. simpl.
  destruct d as [d|].
  - unfold delete_ at 1. destruct (heap w !! d) as [b|] eqn:Ed; [|discriminate].
    destruct h as [h|].
    + unfold dlclose at 1. simpl. destruct (modules w !! h) as [l|] eqn:Eh; [|discriminate].
      intros _. split; eexists; reflexivity.
    + intros _. split; [eexists; reflexivity|exact I].
  - destruct h as [h|].
    + unfold dlclose at 1. simpl. destruct (modules w !! h) as [l|] eqn:Eh; [|discriminate].
      intros _. split; [exact I|eexists; reflexivity].
    + intros _. split; exact I.
Qed.

Lemma load_device_done_readable s t w r t' w' :
  Trampoline.load_device s t w = Done r t' w' -> is_Some (cwd w).
Proof.
  intros H. pose proof (load_device_done_owns _ _ _ _ _ _ H) as Hown.
  rewrite (load_device_released s t w Hown) in H.
  destruct (cwd w) as [here|] eqn:Hc; [eexists; reflexivity|].
  rewrite (open_and_create_unreadable s t (released t w) Hc) in H. discriminate.
Qed.

(** The three ways [load_device] can end, by the events after the teardown. *)
Lemma load_device_cases s t w :
  owns t w -> is_Some (cwd w) ->
  exists t' w' evs,
    Trampoline.load_device s t w = Done tt t' w' /\
    log w' = log w ++ release_events t ++ evs /\
    ((exists p line, evs = [Dlopen p None; Cerr line] /\
                     t' = Trampoline.mk (Trampoline.device t) None) \/
     (exists p h line, evs = [Dlopen p (Some h); Dlsym h "create_device" false;
                              Cerr line; Dlclose h] /\
                       t' = Trampoline.mk (Trampoline.device t) None) \/
     (exists p h d, evs = [Dlopen p (Some h); Dlsym h "create_device" true; New d] /\
                    t' = Trampoline.mk (Some d) (Some h))).
Proof.
  intros Hown Hcwd. rewrite (load_device_released s t w Hown).
  destruct (resolution_cases s w Hcwd) as [(b & E)|[E|E]].
  - destruct (open_and_create_loadable s b t (released t w) E)
      as (w' & Hrun & _ & _ & _ & _ & _ & Hlog).
    do 3 eexists. split; [exact Hrun|]. split.
    + rewrite Hlog. simpl. rewrite <- app_assoc. reflexivity.
    + right. right. do 3 eexists. split; reflexivity.
  - destruct (open_and_create_symbol_missing s t (released t w) E)
      as (w' & Hrun & _ & _ & _ & _ & _ & Hlog).
    do 3 eexists. split; [exact Hrun|]. split.
    + rewrite Hlog. simpl. rewrite <- app_assoc. reflexivity.
    + right. left. do 3 eexists. split; reflexivity.
  - destruct (open_and_create_open_fails s t (released t w) E)
      as (w' & Hrun & _ & _ & _ & _ & _ & Hlog).
    do 3 eexists. split; [exact Hrun|]. split.
    + rewrite Hlog. simpl. rewrite <- app_assoc. reflexivity.
    + left. do 2 eexists. split; reflexivity.
Qed.

Lemma held_by_length p l : held_by p l -> (length l <=? 1)%nat = true.
Proof. intros [->|(a & _ & ->)]; reflexivity. Qed.

Lemma release_replay t ds ms :
  held_by (Trampoline.device t) ds -> held_by (Trampoline.handle t) ms ->
  at_most_one_from ds ms (release_events t) = true /\
  devices_after ds (release_events t) = [] /\
  modules_after ms (release_events t) = [].
Proof.
  intros Hd Hm. destruct t as [d h]. unfold release_events. simpl in *.
  destruct Hd as [->|(a & -> & ->)], Hm as [->|(b & -> & ->)].
  - destruct d, h; repeat split.
  - destruct d; simpl; unfold drop_addr; simpl; rewrite Pos.eqb_refl; repeat split.
  - destruct h; simpl; unfold drop_addr; simpl; rewrite Pos.eqb_refl; repeat split.
  - simpl. unfold drop_addr. simpl. rewrite !Pos.eqb_refl. repeat split.
Qed.

Lemma load_device_replay s t w ds ms :
  owns t w -> is_Some (cwd w) ->
  held_by (Trampoline.device t) ds -> held_by (Trampoline.handle t) ms ->
  exists t' w' evs,
    Trampoline.load_device s t w = Done tt t' w' /\
    log w' = log w ++ evs /\
    at_most_one_from ds ms evs = true /\
    held_by (Trampoline.device t') (devices_after ds evs) /\
    held_by (Trampoline.handle t') (modules_after ms evs).
Proof.
  intros Hown Hcwd Hd Hm.
  destruct (load_device_cases s t w Hown Hcwd) as (t' & w' & evs & Hrun & Hlog & Hcase).
  destruct (release_replay t ds ms Hd Hm) as (Hb & Hds & Hms).
  exists t', w', (release_events t ++ evs).
  split; [exact Hrun|]. split; [exact Hlog|].
  rewrite at_most_one_from_app, devices_after_app, modules_after_app, Hb, Hds, Hms.
  destruct Hcase as [(p & line & -> & ->)|[(p & h & line & -> & ->)|(p & h & d & -> & ->)]].
  - repeat split; left; reflexivity.
  - simpl. unfold drop_addr. simpl. rewrite Pos.eqb_refl. simpl.
    repeat split; left; reflexivity.
  - repeat split; right; eexists; split; reflexivity.
Qed.

Lemma perform_replay a t w v t' w' ds ms :
  perform a t w = Done v t' w' ->
  held_by (Trampoline.device t) ds -> held_by (Trampoline.handle t) ms ->
  exists evs,
    log w' = log w ++ evs /\
    at_most_one_from ds ms evs = true /\
    held_by (Trampoline.device t') (devices_after ds evs) /\
    held_by (Trampoline.handle t') (modules_after ms evs).
Proof.
  intros Hrun Hd Hm. destruct a as [s|c]; simpl in Hrun.
  - unfold void_ in Hrun. unmonad_in Hrun.
    destruct (Trampoline.load_device s t w) as [r t1 w1|tx wx|u] eqn:E; [|discriminate|discriminate].
    injection Hrun as _ <- <-.
    pose proof (load_device_done_owns _ _ _ _ _ _ E) as Hown.
    pose proof (load_device_done_readable _ _ _ _ _ _ E) as Hcwd.
    destruct (load_device_replay s t w ds ms Hown Hcwd Hd Hm)
      as (t2 & w2 & evs & Hrun2 & Hlog & Hb & Hd2 & Hm2).
    rewrite E in Hrun2. injection Hrun2 as _ <- <-.
    exists evs. repeat split; assumption.
  - destruct (Trampoline_run_done c t w v t' w' Hrun) as (-> & e & Hlog & He).
    exists [e]. split; [exact Hlog|].
    assert (Hsd : step_devices ds e = ds) by (destruct e; try discriminate; reflexivity).
    assert (Hsm : step_modules ms e = ms) by (destruct e; try discriminate; reflexivity).
    unfold devices_after, modules_after. simpl. rewrite Hsd, Hsm.
    rewrite (held_by_length _ _ Hd), (held_by_length _ _ Hm).
    repeat split; assumption.
Qed.

Lemma perform_all_replay l t w vs t' w' ds ms :
  perform_all l t w = Done vs t' w' ->
  held_by (Trampoline.device t) ds -> held_by (Trampoline.handle t) ms ->
  exists evs, log w' = log w ++ evs /\ at_most_one_from ds ms evs = true.
Proof.
  revert t w vs ds ms. induction l as [|a r IH]; intros t w vs ds ms Hrun Hd Hm.
  - injection Hrun as _ <- <-. exists []. split; [symmetry; apply app_nil_r|].
    simpl. rewrite (held_by_length _ _ Hd), (held_by_length _ _ Hm). reflexivity.
  - simpl in Hrun. unmonad_in Hrun.
    destruct (perform a t w) as [v t1 w1|tx wx|u] eqn:E1; [|discriminate|discriminate].
    destruct (perform_all r t1 w1) as [vs' t2 w2|tx wx|u] eqn:E2; [|discriminate|discriminate].
    injection Hrun as _ <- <-.
    destruct (perform_replay a t w v t1 w1 ds ms E1 Hd Hm)
      as (evs1 & Hlog1 & Hb1 & Hd1 & Hm1).
    destruct (IH t1 w1 vs' _ _ E2 Hd1 Hm1) as (evs2 & Hlog2 & Hb2).
    exists (evs1 ++ evs2). split.
    + rewrite Hlog2, Hlog1, app_assoc. reflexivity.
    + rewrite at_most_one_from_app, Hb1, Hb2. reflexivity.
Qed.

(** C4: a [load_device] of a loadable device type [x] followed by a
    [load_device] of a loadable type [y] ends with the [y] device as the
    trampoline's device and the [y] module as its handle; the [x] device has
    been deleted and the [x] module closed, in that order and before the [y]
    module is opened, so that beyond what the trampoline held before the
    first load the heap and the open modules hold exactly the [y] pair.
    Through any sequence of calls on a [Trampoline] that completes, at every
    point of the log at most one of its devices and at most one of its
    modules is active. *)
Theorem reload_replaces_the_pair :
  (forall x y bx b_y t0 w0,
     owns t0 w0 -> fresh w0 -> loadable x bx w0 -> loadable y b_y w0 ->
     exists d1 h1 d2 h2 w1 w2,
       Trampoline.load_device x t0 w0 = Done tt (Trampoline.mk (Some d1) (Some h1)) w1 /\
       heap w1 !! d1 = Some bx /\ modules w1 !! h1 = Some (mkLibrary (Some bx)) /\
       Trampoline.load_device y (Trampoline.mk (Some d1) (Some h1)) w1
       = Done tt (Trampoline.mk (Some d2) (Some h2)) w2 /\
       heap w2 = <[d2 := b_y]> (without (Trampoline.device t0) (heap w0)) /\
       heap w0 !! d2 = None /\ heap w2 !! d1 = None /\
       modules w2 = <[h2 := mkLibrary (Some b_y)]> (without (Trampoline.handle t0) (modules w0)) /\
       modules w0 !! h2 = None /\ modules w2 !! h1 = None /\
       log w2 = log w0 ++ release_events t0
                      ++ [Dlopen (loader_path x w0) (Some h1);
                          Dlsym h1 "create_device" true; New d1;
                          Delete d1; Dlclose h1;
                          Dlopen (loader_path y w0) (Some h2);
                          Dlsym h2 "create_device" true; New d2]) /\
  (forall s0 l w0 vs t w,
     and_then (Trampoline.construct s0 w0) (perform_all l) = Done vs t w ->
     exists evs, log w = log w0 ++ evs /\ at_most_one_active evs = true).
Proof.
  split.
  - intros x y bx b_y t0 w0 Hown0 Hf Hx Hy.
    set (n := next w0).
    set (hp := without (Trampoline.device t0) (heap w0)).
    set (md := without (Trampoline.handle t0) (modules w0)).
    assert (Hn0 : hp !! n = None /\ md !! n = None)
      by (split; apply without_fresh; apply Hf; reflexivity).
    assert (Hn1 : hp !! Pos.succ n = None /\ md !! Pos.succ n = None)
      by (split; apply without_fresh; apply Hf; unfold n; lia).
    assert (Hn2 : heap w0 !! Pos.succ (Pos.succ n) = None /\
                  modules w0 !! Pos.succ (Pos.succ n) = None)
      by (apply Hf; unfold n; lia).
    assert (Hn3 : heap w0 !! Pos.succ (Pos.succ (Pos.succ n)) = None /\
                  modules w0 !! Pos.succ (Pos.succ (Pos.succ n)) = None)
      by (apply Hf; unfold n; lia).
    destruct (open_and_create_loadable x bx t0 (released t0 w0) Hx)
      as (w1 & Hrun1 & Hh1 & Hm1 & Hc1 & Hfi1 & Hnx1 & Hlog1).
    change (next (released t0 w0)) with n in Hrun1, Hh1, Hm1, Hnx1, Hlog1.
    change (heap (released t0 w0)) with hp in Hh1.
    change (modules (released t0 w0)) with md in Hm1.
    change (cwd (released t0 w0)) with (cwd w0) in Hc1, Hlog1.
    change (files (released t0 w0)) with (files w0) in Hfi1.
    assert (Hown1 : owns (Trampoline.mk (Some (Pos.succ n)) (Some n)) w1).
    { split; simpl.
      - rewrite Hh1, lookup_insert_eq. eexists; reflexivity.
      - rewrite Hm1, lookup_insert_eq. eexists; reflexivity. }
    set (t1 := Trampoline.mk (Some (Pos.succ n)) (Some n)) in *.
    assert (Hy1 : loadable y b_y (released t1 w1)).
    { unfold loadable in *.
      rewrite (lookup_module_same y (released t1 w1) w0); [exact Hy|exact Hc1|exact Hfi1]. }
    destruct (open_and_create_loadable y b_y t1 (released t1 w1) Hy1)
      as (w2 & Hrun2 & Hh2 & Hm2 & _ & _ & _ & Hlog2).
    rewrite (loader_path_same y (released t1 w1) w0 Hc1) in Hlog2.
    simpl in Hrun2, Hh2, Hm2, Hlog2. rewrite Hnx1 in Hrun2, Hh2, Hm2, Hlog2.
    exists (Pos.succ n), n, (Pos.succ (Pos.succ (Pos.succ n))), (Pos.succ (Pos.succ n)), w1, w2.
    assert (Eh : delete (Pos.succ n) (heap w1) = hp).
    { rewrite Hh1, delete_insert_eq. apply delete_id, Hn1. }
    assert (Em : delete n (modules w1) = md).
    { rewrite Hm1, delete_insert_eq. apply delete_id, Hn0. }
    assert (Hh2' : heap w2 = <[Pos.succ (Pos.succ (Pos.succ n)) := b_y]> hp)
      by (rewrite Hh2; f_equal; exact Eh).
    assert (Hm2' : modules w2 = <[Pos.succ (Pos.succ n) := mkLibrary (Some b_y)]> md)
      by (rewrite Hm2; f_equal; exact Em).
    split; [exact (eq_trans (load_device_released x t0 w0 Hown0) Hrun1)|].
    split; [rewrite Hh1; apply lookup_insert_eq|].
    split; [rewrite Hm1; apply lookup_insert_eq|].
    split; [exact (eq_trans (load_device_released y t1 w1 Hown1) Hrun2)|].
    split; [exact Hh2'|]. split; [apply Hn3|].
    split; [rewrite Hh2', lookup_insert_ne by lia; apply Hn1|].
    split; [exact Hm2'|]. split; [apply Hn2|].
    split; [rewrite Hm2', lookup_insert_ne by lia; apply Hn0|].
    rewrite Hlog2, Hlog1. simpl. rewrite <- !app_assoc. reflexivity.
  - intros s0 l w0 vs t w Hrun.
    unfold Trampoline.construct in Hrun.
    destruct (Trampoline.load_device s0 (Trampoline.mk None None) w0)
      as [r t1 w1|tx wx|u] eqn:E; [|discriminate|discriminate].
    simpl in Hrun.
    assert (He : held_by None []) by (left; reflexivity).
    destruct (load_device_replay s0 (Trampoline.mk None None) w0 [] []
                (owns_unloaded w0) (load_device_done_readable _ _ _ _ _ _ E) He He)
      as (t2 & w2 & evs1 & Hrun2 & Hlog1 & Hb1 & Hd1 & Hm1).
    rewrite E in Hrun2. injection Hrun2 as _ <- <-.
    destruct (perform_all_replay l t1 w1 vs t w _ _ Hrun Hd1 Hm1) as (evs2 & Hlog2 & Hb2).
    exists (evs1 ++ evs2). split.
    + rewrite Hlog2, Hlog1, app_assoc. reflexivity.
    + unfold at_most_one_active. rewrite at_most_one_from_app, Hb1, Hb2. reflexivity.
Qed.

Lemma reload_replaces_the_pair_witness :
  owns (Trampoline.mk None None) reload_world /\
  fresh reload_world /\
  loadable "nvme" demo_backend reload_world /\
  loadable "gds" gds_backend reload_world /\
  exists d1 h1 d2 h2 w1 w2,
    Trampoline.load_device "nvme" (Trampoline.mk None None) reload_world
    = Done tt (Trampoline.mk (Some d1) (Some h1)) w1 /\
    Trampoline.load_device "gds" (Trampoline.mk (Some d1) (Some h1)) w1
    = Done tt (Trampoline.mk (Some d2) (Some h2)) w2 /\
    heap w2 = <[d2 := gds_backend]> (heap reload_world) /\
    modules w2 = <[h2 := mkLibrary (Some gds_backend)]> (modules reload_world).
Proof.
  assert (Hf : fresh reload_world) by (intros a _; split; apply lookup_empty).
  assert (Hx : loadable "nvme" demo_backend reload_world) by (vm_compute; reflexivity).
  assert (Hy : loadable "gds" gds_backend reload_world) by (vm_compute; reflexivity).
  assert (Ho : owns (Trampoline.mk None None) reload_world) by (split; exact I).
  split; [exact Ho|]. split; [exact Hf|]. split; [exact Hx|]. split; [exact Hy|].
  destruct reload_replaces_the_pair as (H & _).
  destruct (H "nvme" "gds" demo_backend gds_backend _ reload_world Ho Hf Hx Hy)
    as (d1 & h1 & d2 & h2 & w1 & w2 & H1 & _ & _ & H2 & H3 & _ & _ & H4 & _).
  exists d1, h1, d2, h2, w1, w2. repeat split; assumption.
Defined.


(** ** Forwarding to a live device *)

Lemma dispatch_void_live {O} (dev : O -> ptr) msg c f this d b w :
  dev this = Some d -> heap w !! d = Some b ->
  dispatch_void dev msg c f this w
  = Done tt this (emit (Forward d c) (set_heap (<[d := snd (f b)]> (heap w)) w)).
Proof.
  intros Hd Hb. unfold dispatch_void, invoke. rewrite Hd, Hb.
  destruct (f b) as [[] b']. reflexivity.
Qed.

Ltac unfold_trampoline_members :=
  unfold Trampoline.aio_read, Trampoline.aio_write, Trampoline.deepspeed_memcpy,
    Trampoline.get_block_size, Trampoline.get_queue_depth, Trampoline.get_single_submit,
    Trampoline.get_overlap_events, Trampoline.get_thread_count,
    Trampoline.read, Trampoline.write, Trampoline.pread, Trampoline.pwrite,
    Trampoline.sync_pread, Trampoline.sync_pwrite, Trampoline.async_pread,
    Trampoline.async_pwrite, Trampoline.new_cpu_locked_tensor,
    Trampoline.free_cpu_locked_tensor, Trampoline.wait,
    Trampoline.forward_void, Trampoline.forward_query, Trampoline.forward_drop.

Ltac unfold_handle_members :=
  unfold DeepSpeedAIOTrampoline.aio_read, DeepSpeedAIOTrampoline.aio_write,
    DeepSpeedAIOTrampoline.deepspeed_memcpy,
    DeepSpeedAIOTrampoline.get_block_size, DeepSpeedAIOTrampoline.get_queue_depth,
    DeepSpeedAIOTrampoline.get_single_submit, DeepSpeedAIOTrampoline.get_overlap_events,
    DeepSpeedAIOTrampoline.get_thread_count,
    DeepSpeedAIOTrampoline.read, DeepSpeedAIOTrampoline.write,
    DeepSpeedAIOTrampoline.pread, DeepSpeedAIOTrampoline.pwrite,
    DeepSpeedAIOTrampoline.sync_pread, DeepSpeedAIOTrampoline.sync_pwrite,
    DeepSpeedAIOTrampoline.async_pread, DeepSpeedAIOTrampoline.async_pwrite,
    DeepSpeedAIOTrampoline.new_cpu_locked_tensor,
    DeepSpeedAIOTrampoline.free_cpu_locked_tensor, DeepSpeedAIOTrampoline.wait,
    DeepSpeedAIOTrampoline.forward_void, DeepSpeedAIOTrampoline.forward_query,
    DeepSpeedAIOTrampoline.forward_drop.

Lemma Trampoline_run_live c d h b w :
  heap w !! d = Some b ->
  exists b',
    Trampoline.run c (Trampoline.mk (Some d) h) w
    = Done (device_answer c b) (Trampoline.mk (Some d) h)
           (emit (Forward d c) (set_heap (<[d := b']> (heap w)) w)).
Proof.
  intros Hb.
  destruct c; simpl; unfold void_, int_, bool_; unmonad; unfold_trampoline_members;
    first [ erewrite dispatch_void_live by (reflexivity || exact Hb)
          | erewrite dispatch_query_live by (reflexivity || exact Hb)
          | erewrite dispatch_drop_live by (reflexivity || exact Hb) ];
    eexists; reflexivity.
Qed.

Lemma DeepSpeedAIOTrampoline_run_live c d b w :
  heap w !! d = Some b ->
  exists b',
    DeepSpeedAIOTrampoline.run c (DeepSpeedAIOTrampoline.mk (Some d)) w
    = Done (device_answer c b) (DeepSpeedAIOTrampoline.mk (Some d))
           (emit (Forward d c) (set_heap (<[d := b']> (heap w)) w)).
Proof.
  intros Hb.
  destruct c; simpl; unfold void_, int_, bool_; unmonad; unfold_handle_members;
    first [ erewrite dispatch_void_live by (reflexivity || exact Hb)
          | erewrite dispatch_query_live by (reflexivity || exact Hb)
          | erewrite dispatch_drop_live by (reflexivity || exact Hb) ];
    eexists; reflexivity.
Qed.

(** X1: with a live device, every forwarding member of either trampoline
    makes exactly one call on that device, the member's own with the
    arguments it was given, and returns what the device answers (the
    configured value from a query).  The object and the open modules are as
    before and the heap changes at the device only. *)
Theorem live_device_receives_the_call :
  (forall c d h b w,
     heap w !! d = Some b ->
     exists w' b',
       Trampoline.run c (Trampoline.mk (Some d) h) w
       = Done (device_answer c b) (Trampoline.mk (Some d) h) w' /\
       log w' = log w ++ [Forward d c] /\
       heap w' = <[d := b']> (heap w) /\ modules w' = modules w) /\
  (forall c d b w,
     heap w !! d = Some b ->
     exists w' b',
       DeepSpeedAIOTrampoline.run c (DeepSpeedAIOTrampoline.mk (Some d)) w
       = Done (device_answer c b) (DeepSpeedAIOTrampoline.mk (Some d)) w' /\
       log w' = log w ++ [Forward d c] /\
       heap w' = <[d := b']> (heap w) /\ modules w' = modules w).
Proof.
  split.
  - intros c d h b w Hb. destruct (Trampoline_run_live c d h b w Hb) as (b' & Hrun).
    eexists. exists b'. split; [exact Hrun|]. repeat split.
  - intros c d b w Hb. destruct (DeepSpeedAIOTrampoline_run_live c d b w Hb) as (b' & Hrun).
    eexists. exists b'. split; [exact Hrun|]. repeat split.
Qed.

Lemma live_device_receives_the_call_witness :
  heap one_device_world !! 2%positive = Some demo_backend /\
  exists w' b',
    Trampoline.run c_get_queue_depth (Trampoline.mk (Some 2%positive) None) one_device_world
    = Done (VInt 128) (Trampoline.mk (Some 2%positive) None) w' /\
    log w' = log one_device_world ++ [Forward 2%positive c_get_queue_depth] /\
    heap w' = <[2%positive := b']> (heap one_device_world) /\
    modules w' = modules one_device_world.
Proof.
  assert (Hb : heap one_device_world !! 2%positive = Some demo_backend)
    by (vm_compute; reflexivity).
  split; [exact Hb|].
  destruct live_device_receives_the_call as (H & _).
  exact (H c_get_queue_depth 2%positive None demo_backend one_device_world Hb).
Defined.

(** ** After a failed reload *)

Lemma Trampoline_run_dangling c d h w :
  heap w !! d = None ->
  Trampoline.run c (Trampoline.mk (Some d) h) w = Undefined (UseAfterFree d).
Proof.
  intros Hb.
  destruct c; simpl; unfold void_, int_, bool_; unmonad; unfold_trampoline_members;
    unfold dispatch_void, dispatch_query, dispatch_drop, invoke; simpl; unmonad;
    rewrite Hb; reflexivity.
Qed.

Lemma load_device_dangling s d h w :
  heap w !! d = None ->
  Trampoline.load_device s (Trampoline.mk (Some d) h) w = Undefined (DoubleFree d).
Proof.
  intros Hb. unfold Trampoline.load_device. unmonad. simpl.
  unfold delete_ at 1. rewrite Hb. reflexivity.
Qed.

Lemma destroy_dangling d h w :
  heap w !! d = None ->
  Trampoline.destroy (Trampoline.mk (Some d) h) w = Undefined (DoubleFree d).
Proof.
  intros Hb. unfold Trampoline.destroy. unmonad. simpl.
  unfold delete_ at 1. rewrite Hb. reflexivity.
Qed.

(** X2: a [load_device] that fails on a [Trampoline] holding a live device
    and an open module returns with [device] still set to the deleted
    object.  From then on nothing can be done with the object: every
    forwarding member calls the deleted device, and every further
    [load_device], whatever the device type, and the destructor delete it a
    second time. *)
Theorem failed_reload_poisons_the_object (s : string) (d h : addr) (w : World) :
  owns (Trampoline.mk (Some d) (Some h)) w -> unresolvable s w ->
  exists w',
    Trampoline.load_device s (Trampoline.mk (Some d) (Some h)) w
    = Done tt (Trampoline.mk (Some d) None) w' /\
    (forall c, Trampoline.run c (Trampoline.mk (Some d) None) w'
               = Undefined (UseAfterFree d)) /\
    (forall s', Trampoline.load_device s' (Trampoline.mk (Some d) None) w'
                = Undefined (DoubleFree d)) /\
    Trampoline.destroy (Trampoline.mk (Some d) None) w' = Undefined (DoubleFree d).
Proof.
  intros Hown Hu.
  destruct (load_device_failure_keeps_device_field s d h _ w eq_refl Hown Hu)
    as (w' & Hrun & Hgone).
  exists w'. split; [exact Hrun|].
  split; [intros c; apply Trampoline_run_dangling, Hgone|].
  split; [intros s'; apply load_device_dangling, Hgone|].
  apply destroy_dangling, Hgone.
Qed.

Lemma failed_reload_poisons_the_object_witness :
  exists w1,
    Trampoline.construct "nvme" demo_world
    = Done tt (Trampoline.mk (Some 2%positive) (Some 1%positive)) w1 /\
    owns (Trampoline.mk (Some 2%positive) (Some 1%positive)) w1 /\
    unresolvable "broken" w1 /\
    exists w',
      Trampoline.load_device "broken" (Trampoline.mk (Some 2%positive) (Some 1%positive)) w1
      = Done tt (Trampoline.mk (Some 2%positive) None) w' /\
      (forall c, Trampoline.run c (Trampoline.mk (Some 2%positive) None) w'
                 = Undefined (UseAfterFree 2%positive)) /\
      (forall s', Trampoline.load_device s' (Trampoline.mk (Some 2%positive) None) w'
                  = Undefined (DoubleFree 2%positive)) /\
      Trampoline.destroy (Trampoline.mk (Some 2%positive) None) w'
      = Undefined (DoubleFree 2%positive).
Proof.
  eexists. split; [vm_compute; reflexivity|].
  match goal with
  | |- owns ?t ?w /\ _ =>
      assert (Ho : owns t w) by (split; vm_compute; eexists; reflexivity);
      assert (Hu : unresolvable "broken" w) by (right; vm_compute; reflexivity)
  end.
  split; [exact Ho|]. split; [exact Hu|].
  exact (failed_reload_poisons_the_object "broken" 2%positive 1%positive _ Ho Hu).
Defined.

(** ** Teardown *)

Lemma destroy_released t w :
  owns t w -> Trampoline.destroy t w = Done tt t (released t w).
Proof.
  intros [Hd Hh]. destruct t as [d h]. unfold Trampoline.destroy. unmonad. simpl in *.
  unfold released, release_events; simpl.
  destruct d as [d|], h as [h|]; simpl in *.
  - destruct Hd as [b Hb], Hh as [l Hl].
    unfold delete_. rewrite Hb. simpl.
    unfold dlclose. simpl. rewrite Hl. simpl.
    unfold emit, set_modules, set_heap; simpl. rewrite <- app_assoc. reflexivity.
  - destruct Hd as [b Hb]. unfold delete_. rewrite Hb. reflexivity.
  - destruct Hh as [l Hl]. unfold dlclose. rewrite Hl. reflexivity.
  - rewrite app_nil_r. destruct w; reflexivity.
Qed.


Lemma nvme_loaded_world_built :
  Trampoline.construct "nvme" reload_world = Done tt nvme_loaded nvme_loaded_world.
Proof. vm_compute. reflexivity. Qed.



(** ** The lifetime of a [Trampoline] *)

Lemma resolves_true s w : resolves s w = true -> exists b, loadable s b w.
Proof.
  unfold resolves, loadable.
  destruct (lookup_module s w) as [[[[b|]]|]|]; try discriminate.
  intros _. exists b. reflexivity.
Qed.

Lemma resolves_false s w :
  is_Some (cwd w) -> resolves s w = false -> unresolvable s w.
Proof.
  intros Hr. destruct (resolution_cases s w Hr) as [(b & H)|[H|H]].
  - unfold resolves. unfold loadable in H. rewrite H. discriminate.
  - intros _. right. exact H.
  - intros _. left. exact H.
Qed.

Lemma in_use_owns w0 loaded t w : in_use w0 loaded t w -> owns t w.
Proof.
  intros (_ & _ & _ & H). destruct loaded.
  - destruct H as (d & h & b & lib & -> & Hh & _ & Hm & _). split; simpl.
    + rewrite Hh, lookup_insert_eq. eexists; reflexivity.
    + rewrite Hm, lookup_insert_eq. eexists; reflexivity.
  - destruct H as (-> & _). apply owns_unloaded.
Qed.

Lemma in_use_released w0 loaded t w :
  in_use w0 loaded t w ->
  heap (released t w) = heap w0 /\ modules (released t w) = modules w0.
Proof.
  intros (_ & _ & _ & H). destruct loaded.
  - destruct H as (d & h & b & lib & -> & Hh & Hd & Hm & Hl). simpl.
    rewrite Hh, Hm, !delete_insert_eq. split; apply delete_id; assumption.
  - destruct H as (-> & Hh & Hm). simpl. split; assumption.
Qed.

Lemma in_use_load_resolved w0 loaded t w s :
  fresh w0 -> in_use w0 loaded t w -> resolves s w0 = true ->
  exists t' w',
    Trampoline.load_device s t w = Done tt t' w' /\ in_use w0 true t' w'.
Proof.
  intros Hf Hin Hres.
  destruct (resolves_true s w0 Hres) as (b & Hl).
  pose proof (in_use_owns _ _ _ _ Hin) as Hown.
  destruct (in_use_released _ _ _ _ Hin) as (Hrh & Hrm).
  destruct Hin as (Hc & Hfi & Hn & _).
  assert (Hl' : loadable s b (released t w)).
  { unfold loadable in *.
    rewrite (lookup_module_same s (released t w) w0); [exact Hl|exact Hc|exact Hfi]. }
  destruct (open_and_create_loadable s b t (released t w) Hl')
    as (w' & Hrun & Hh & Hm & Hc' & Hfi' & Hn' & _).
  rewrite Hrh in Hh. rewrite Hrm in Hm.
  change (next (released t w)) with (next w) in Hrun, Hh, Hm, Hn'.
  change (cwd (released t w)) with (cwd w) in Hc'.
  change (files (released t w)) with (files w) in Hfi'.
  do 2 eexists. split; [exact (eq_trans (load_device_released s t w Hown) Hrun)|].
  split; [congruence|]. split; [congruence|].
  split; [rewrite Hn'; lia|].
  exists (Pos.succ (next w)), (next w), b, (mkLibrary (Some b)).
  split; [reflexivity|]. split; [exact Hh|].
  split; [apply Hf; lia|]. split; [exact Hm|]. apply Hf; lia.
Qed.

Lemma in_use_load_unresolved w0 t w s :
  fresh w0 -> is_Some (cwd w0) -> in_use w0 false t w -> resolves s w0 = false ->
  exists w',
    Trampoline.load_device s t w = Done tt t w' /\ in_use w0 false t w'.
Proof.
  intros Hf Hr Hin Hres.
  pose proof (resolves_false s w0 Hr Hres) as Hu.
  pose proof (in_use_owns _ _ _ _ Hin) as Hown.
  destruct (in_use_released _ _ _ _ Hin) as (Hrh & Hrm).
  destruct Hin as (Hc & Hfi & Hn & -> & Hh0 & Hm0).
  rewrite (load_device_released s _ w Hown).
  destruct Hu as [Hu|Hu].
  - assert (Hu' : open_fails s (released (Trampoline.mk None None) w))
      by (unfold open_fails in *;
          rewrite (lookup_module_same s (released (Trampoline.mk None None) w) w0);
          [exact Hu|exact Hc|exact Hfi]).
    destruct (open_and_create_open_fails s (Trampoline.mk None None) _ Hu')
      as (w' & Hrun & Hh & Hm & Hc' & Hfi' & Hn' & _).
    exists w'. split; [exact Hrun|].
    split; [simpl in Hc'; congruence|]. split; [simpl in Hfi'; congruence|].
    split; [simpl in Hn'; rewrite Hn'; exact Hn|].
    split; [reflexivity|]. split; congruence.
  - assert (Hu' : symbol_missing s (released (Trampoline.mk None None) w))
      by (unfold symbol_missing in *;
          rewrite (lookup_module_same s (released (Trampoline.mk None None) w) w0);
          [exact Hu|exact Hc|exact Hfi]).
    destruct (open_and_create_symbol_missing s (Trampoline.mk None None) _ Hu')
      as (w' & Hrun & Hh & Hm & Hc' & Hfi' & Hn' & _).
    exists w'. split; [exact Hrun|].
    split; [simpl in Hc'; congruence|]. split; [simpl in Hfi'; congruence|].
    split; [simpl in Hn'; rewrite Hn'; lia|].
    split; [reflexivity|]. split; [congruence|].
    rewrite Hm, Hrm. apply delete_id. apply Hf. simpl. exact Hn.
Qed.

Lemma in_use_run w0 loaded t w c :
  in_use w0 loaded t w ->
  exists v w', Trampoline.run c t w = Done v t w' /\ in_use w0 loaded t w'.
Proof.
  intros (Hc & Hfi & Hn & H). destruct loaded.
  - destruct H as (d & h & b & lib & -> & Hh & Hd & Hm & Hl).
    assert (Hb : heap w !! d = Some b) by (rewrite Hh; apply lookup_insert_eq).
    destruct (Trampoline_run_live c d (Some h) b w Hb) as (b' & Hrun).
    do 2 eexists. split; [exact Hrun|].
    split; [exact Hc|]. split; [exact Hfi|]. split; [exact Hn|].
    exists d, h, b', lib. split; [reflexivity|]. simpl.
    split; [rewrite Hh; apply insert_insert_eq|].
    split; [exact Hd|]. split; assumption.
  - destruct H as (-> & Hh & Hm).
    do 2 eexists. split; [apply Trampoline_run_no_device; reflexivity|].
    split; [exact Hc|]. split; [exact Hfi|]. split; [exact Hn|].
    split; [reflexivity|]. split; assumption.
Qed.

Lemma in_use_perform_all w0 l :
  fresh w0 -> is_Some (cwd w0) ->
  forall loaded t w,
    in_use w0 loaded t w -> well_used w0 loaded l = true ->
    exists vs loaded' t' w',
      perform_all l t w = Done vs t' w' /\ in_use w0 loaded' t' w'.
Proof.
  intros Hf Hr. induction l as [|a r IH]; intros loaded t w Hin Hwell.
  - exists [], loaded, t, w. split; [reflexivity|exact Hin].
  - destruct a as [s|c]; simpl in Hwell.
    + destruct (resolves s w0) eqn:Hres.
      * destruct (in_use_load_resolved w0 loaded t w s Hf Hin Hres) as (t1 & w1 & Hrun & Hin1).
        destruct (IH true t1 w1 Hin1 Hwell) as (vs & l' & t2 & w2 & Hrun2 & Hin2).
        exists (VVoid :: vs), l', t2, w2. split; [|exact Hin2].
        simpl. unfold void_. unmonad. rewrite Hrun.
        change (match perform_all r t1 w1 with
                | Done a this' w' => Done (VVoid :: a) this' w'
                | Thrown this' w' => Thrown this' w'
                | Undefined u => Undefined u
                end = Done (VVoid :: vs) t2 w2).
        rewrite Hrun2. reflexivity.
      * apply andb_true_iff in Hwell. destruct Hwell as [Hl Hwell].
        destruct loaded; [discriminate|].
        destruct (in_use_load_unresolved w0 t w s Hf Hr Hin Hres) as (w1 & Hrun & Hin1).
        destruct (IH false t w1 Hin1 Hwell) as (vs & l' & t2 & w2 & Hrun2 & Hin2).
        exists (VVoid :: vs), l', t2, w2. split; [|exact Hin2].
        simpl. unfold void_. unmonad. rewrite Hrun.
        change (match perform_all r t w1 with
                | Done a this' w' => Done (VVoid :: a) this' w'
                | Thrown this' w' => Thrown this' w'
                | Undefined u => Undefined u
                end = Done (VVoid :: vs) t2 w2).
        rewrite Hrun2. reflexivity.
    + destruct (in_use_run w0 loaded t w c Hin) as (v & w1 & Hrun & Hin1).
      destruct (IH loaded t w1 Hin1 Hwell) as (vs & l' & t2 & w2 & Hrun2 & Hin2).
      exists (v :: vs), l', t2, w2. split; [|exact Hin2].
      simpl. unmonad. rewrite Hrun.
      change (match perform_all r t w1 with
              | Done a this' w' => Done (v :: a) this' w'
              | Thrown this' w' => Thrown this' w'
              | Undefined u => Undefined u
              end = Done (v :: vs) t2 w2).
      rewrite Hrun2. reflexivity.
Qed.

Lemma in_use_destroy w0 loaded t w :
  in_use w0 loaded t w ->
  exists w',
    Trampoline.destroy t w = Done tt t w' /\ heap w' = heap w0 /\ modules w' = modules w0.
Proof.
  intros Hin. exists (released t w).
  split; [apply destroy_released, (in_use_owns _ _ _ _ Hin)|].
  apply (in_use_released _ _ _ _ Hin).
Qed.

(** X4: a [Trampoline] that is built, used and destroyed leaves nothing
    behind, provided no [load_device] fails while a device is loaded.  The
    constructor's load and any later load may fail while nothing is loaded;
    calls may be made in either state.  Then, when the working directory can
    be read, every call completes, so does the destructor, and afterwards
    the heap and the open modules are exactly what they were before the
    object was built.  When the working directory cannot be read, the
    constructor is left by the exception of [current_path] with no object
    built and the world as it was. *)
Theorem trampoline_lifetime_leaves_nothing (s0 : string) (l : list Action) (w0 : World) :
  fresh w0 ->
  well_used w0 false (a_load_device s0 :: l) = true ->
  (is_Some (cwd w0) ->
   exists vs t w1 w2,
     and_then (Trampoline.construct s0 w0) (perform_all l) = Done vs t w1 /\
     Trampoline.destroy t w1 = Done tt t w2 /\
     heap w2 = heap w0 /\ modules w2 = modules w0) /\
  (cwd w0 = None ->
   and_then (Trampoline.construct s0 w0) (perform_all l)
   = Thrown (Trampoline.mk None None) w0).
Proof.
  intros Hf Hwell. split.
  - intros Hr.
    assert (Hin0 : in_use w0 false (Trampoline.mk None None) w0).
    { repeat split. reflexivity. }
    simpl in Hwell. unfold Trampoline.construct.
    destruct (resolves s0 w0) eqn:Hres.
    + destruct (in_use_load_resolved w0 false _ w0 s0 Hf Hin0 Hres) as (t1 & w1 & Hrun & Hin1).
      destruct (in_use_perform_all w0 l Hf Hr true t1 w1 Hin1 Hwell)
        as (vs & l' & t2 & w2 & Hrun2 & Hin2).
      destruct (in_use_destroy _ _ _ _ Hin2) as (w3 & Hd & Hh & Hm).
      exists vs, t2, w2, w3. rewrite Hrun. simpl. repeat split; assumption.
    + simpl in Hwell.
      destruct (in_use_load_unresolved w0 _ w0 s0 Hf Hr Hin0 Hres) as (w1 & Hrun & Hin1).
      destruct (in_use_perform_all w0 l Hf Hr false _ w1 Hin1 Hwell)
        as (vs & l' & t2 & w2 & Hrun2 & Hin2).
      destruct (in_use_destroy _ _ _ _ Hin2) as (w3 & Hd & Hh & Hm).
      exists vs, t2, w2, w3. rewrite Hrun. simpl. repeat split; assumption.
  - intros Hc. unfold Trampoline.construct.
    rewrite (load_device_released s0 _ w0 (owns_unloaded w0)).
    rewrite open_and_create_unreadable by exact Hc.
    simpl. unfold released, release_events. simpl. rewrite app_nil_r.
    destruct w0; reflexivity.
Qed.

Lemma trampoline_lifetime_leaves_nothing_witness :
  fresh reload_world /\
  well_used reload_world false
    [a_load_device "null"; a_call c_get_block_size; a_load_device "nvme";
     a_call (c_async_pwrite demo_tensor "f"); a_load_device "gds"; a_call c_wait] = true /\
  is_Some (cwd reload_world) /\
  exists vs t w1 w2,
    and_then (Trampoline.construct "null" reload_world)
             (perform_all [a_call c_get_block_size; a_load_device "nvme";
                           a_call (c_async_pwrite demo_tensor "f");
                           a_load_device "gds"; a_call c_wait]) = Done vs t w1 /\
    Trampoline.destroy t w1 = Done tt t w2 /\
    heap w2 = heap reload_world /\ modules w2 = modules reload_world.
Proof.
  assert (Hf : fresh reload_world) by (intros a _; split; apply lookup_empty).
  assert (Hw : well_used reload_world false
                 [a_load_device "null"; a_call c_get_block_size; a_load_device "nvme";
                  a_call (c_async_pwrite demo_tensor "f"); a_load_device "gds";
                  a_call c_wait] = true) by (vm_compute; reflexivity).
  assert (Hr : is_Some (cwd reload_world)) by (eexists; reflexivity).
  split; [exact Hf|]. split; [exact Hw|]. split; [exact Hr|].
  destruct (trampoline_lifetime_leaves_nothing "null" _ reload_world Hf Hw) as (H & _).
  exact (H Hr).
Defined.

(** ** The lifetime of an [aio_handle] *)

Section Handle.

Variable NVMEDevice : Backend.

Lemma handle_load_nvme t w :
  DeepSpeedAIOTrampoline.load_device NVMEDevice "nvme" t w
  = Done tt (DeepSpeedAIOTrampoline.mk (Some (next w)))
         (emit (New (next w)) (bump (set_heap (<[next w := NVMEDevice]> (heap w)) w))).
Proof. reflexivity. Qed.

Lemma handle_load_unknown s t w :
  String.eqb s "nvme" = false ->
  DeepSpeedAIOTrampoline.load_device NVMEDevice s t w
  = Done tt t (emit (Cerr ("Unknown device type: " +:+ s +:+ nl)) w).
Proof.
  intros Hs. unfold DeepSpeedAIOTrampoline.load_device. rewrite Hs. reflexivity.
Qed.

Lemma handle_perform_all_cons a r t w v t1 w1 vs t2 w2 :
  handle_perform NVMEDevice a t w = Done v t1 w1 ->
  handle_perform_all NVMEDevice r t1 w1 = Done vs t2 w2 ->
  handle_perform_all NVMEDevice (a :: r) t w = Done (v :: vs) t2 w2.
Proof.
  intros H1 H2. simpl. unmonad. rewrite H1.
  change (match handle_perform_all NVMEDevice r t1 w1 with
          | Done a0 this' w' => Done (v :: a0) this' w'
          | Thrown this' w' => Thrown this' w'
          | Undefined u => Undefined u
          end = Done (v :: vs) t2 w2).
  rewrite H2. reflexivity.
Qed.

Lemma handle_stays_loaded l :
  forall d b w,
    heap w !! d = Some b ->
    exists vs d' b' w',
      handle_perform_all NVMEDevice l (DeepSpeedAIOTrampoline.mk (Some d)) w
      = Done vs (DeepSpeedAIOTrampoline.mk (Some d')) w' /\
      heap w' !! d' = Some b' /\
      cerr_lines (log w') = cerr_lines (log w) ++ unknown_type_lines l /\
      modules w' = modules w.
Proof.
  induction l as [|a r IH]; intros d b w Hb.
  - exists [], d, b, w. split; [reflexivity|]. split; [exact Hb|].
    split; [symmetry; apply app_nil_r|reflexivity].
  - destruct a as [s|c].
    + destruct (String.eqb s "nvme") eqn:Hs.
      * apply String.eqb_eq in Hs. subst s.
        set (w1 := emit (New (next w)) (bump (set_heap (<[next w := NVMEDevice]> (heap w)) w))).
        assert (Hb1 : heap w1 !! next w = Some NVMEDevice) by apply lookup_insert_eq.
        destruct (IH (next w) NVMEDevice w1 Hb1) as (vs & d' & b' & w' & Hrun & Hl & Hce & Hm).
        exists (VVoid :: vs), d', b', w'. split.
        { eapply handle_perform_all_cons; [|exact Hrun].
          simpl. unfold void_. unmonad. rewrite handle_load_nvme. reflexivity. }
        split; [exact Hl|]. split; [|exact Hm].
        rewrite Hce. unfold w1. simpl. rewrite cerr_lines_app. simpl.
        rewrite app_nil_r. reflexivity.
      * set (w1 := emit (Cerr ("Unknown device type: " +:+ s +:+ nl)) w).
        assert (Hb1 : heap w1 !! d = Some b) by exact Hb.
        destruct (IH d b w1 Hb1) as (vs & d' & b' & w' & Hrun & Hl & Hce & Hm).
        exists (VVoid :: vs), d', b', w'. split.
        { eapply handle_perform_all_cons; [|exact Hrun].
          simpl. unfold void_. unmonad. rewrite (handle_load_unknown s _ w Hs). reflexivity. }
        split; [exact Hl|]. split; [|exact Hm].
        rewrite Hce. unfold w1. simpl. rewrite cerr_lines_app. simpl.
        unfold unknown_type_lines. simpl. rewrite Hs. simpl.
        rewrite <- app_assoc. reflexivity.
    + destruct (DeepSpeedAIOTrampoline_run_live c d b w Hb) as (b1 & Hrun1).
      set (w1 := emit (Forward d c) (set_heap (<[d := b1]> (heap w)) w)) in *.
      assert (Hb1 : heap w1 !! d = Some b1) by apply lookup_insert_eq.
      destruct (IH d b1 w1 Hb1) as (vs & d' & b' & w' & Hrun & Hl & Hce & Hm).
      exists (device_answer c b :: vs), d', b', w'. split.
      { eapply handle_perform_all_cons; [exact Hrun1|exact Hrun]. }
      split; [exact Hl|]. split; [|exact Hm].
      rewrite Hce. unfold w1. simpl. rewrite cerr_lines_app. simpl.
      rewrite app_nil_r. reflexivity.
Qed.

(** X5: an [aio_handle] always has a live device.  From its construction
    on, through any sequence of [load_device] calls of any device type and
    of forwarding calls, every call completes, the object's [device] points
    to a live device, no module is opened, and the only lines written to
    [std::cerr] are the "Unknown device type" lines of the loads whose type
    is not ["nvme"]: the "No device loaded" branch of its members is never
    taken. *)
Theorem aio_handle_always_has_a_device (l : list Action) (w0 : World) :
  exists vs d b w,
    and_then (DeepSpeedAIOTrampoline.construct NVMEDevice w0)
             (handle_perform_all NVMEDevice l)
    = Done vs (DeepSpeedAIOTrampoline.mk (Some d)) w /\
    heap w !! d = Some b /\
    cerr_lines (log w) = cerr_lines (log w0) ++ unknown_type_lines l /\
    modules w = modules w0.
Proof.
  unfold DeepSpeedAIOTrampoline.construct. rewrite handle_load_nvme. simpl.
  set (w1 := emit (New (next w0)) (bump (set_heap (<[next w0 := NVMEDevice]> (heap w0)) w0))).
  assert (Hb1 : heap w1 !! next w0 = Some NVMEDevice) by apply lookup_insert_eq.
  destruct (handle_stays_loaded l (next w0) NVMEDevice w1 Hb1)
    as (vs & d' & b' & w' & Hrun & Hl & Hce & Hm).
  exists vs, d', b', w'. split; [exact Hrun|]. split; [exact Hl|].
  split; [|exact Hm].
  rewrite Hce. unfold w1. simpl. rewrite cerr_lines_app. simpl.
  rewrite app_nil_r. reflexivity.
Qed.

End Handle.

Section HandleLeak.

Variable NVMEDevice : Backend.
Variable w0 : World.
Hypothesis fresh_w0 : fresh w0.

Lemma fresh_after_new w b :
  fresh w -> fresh (emit (New (next w)) (bump (set_heap (<[next w := b]> (heap w)) w))).
Proof.
  intros Hf a Ha. simpl in *. split.
  - rewrite lookup_insert_ne by lia. apply Hf. lia.
  - apply Hf. lia.
Qed.

Lemma fresh_after_forward w d c b b' :
  fresh w -> heap w !! d = Some b ->
  fresh (emit (Forward d c) (set_heap (<[d := b']> (heap w)) w)).
Proof.
  intros Hf Hb a Ha. destruct (Hf a Ha) as [Hh Hm]. split; [|exact Hm].
  change (<[d := b']> (heap w) !! a = None).
  rewrite lookup_insert_ne; [exact Hh|]. intros Heq. subst a.
  assert (E : Some b = None) by (exact (eq_trans (eq_sym Hb) Hh)). discriminate.
Qed.

Lemma handle_leaks l :
  forall k d b w,
    fresh w -> heap w !! d = Some b -> (next w0 <= d)%positive ->
    heap w0 ⊆ heap w -> size (heap w) = (size (heap w0) + 1 + k)%nat ->
    exists vs d' b' w',
      handle_perform_all NVMEDevice l (DeepSpeedAIOTrampoline.mk (Some d)) w
      = Done vs (DeepSpeedAIOTrampoline.mk (Some d')) w' /\
      heap w' !! d' = Some b' /\ (next w0 <= d')%positive /\
      heap w0 ⊆ heap w' /\
      size (heap w') = (size (heap w0) + 1 + k + nvme_loads l)%nat.
Proof.
  induction l as [|a r IH]; intros k d b w Hf Hb Hd Hsub Hsize.
  - exists [], d, b, w. split; [reflexivity|]. split; [exact Hb|]. split; [exact Hd|].
    split; [exact Hsub|]. simpl. lia.
  - destruct a as [s|c].
    + destruct (String.eqb s "nvme") eqn:Hs.
      * apply String.eqb_eq in Hs. subst s.
        set (w1 := emit (New (next w)) (bump (set_heap (<[next w := NVMEDevice]> (heap w)) w))).
        destruct (fresh_next w Hf) as [Hn _].
        assert (Hle : (next w0 <= next w)%positive).
        { apply Pos.le_nlt. intros H.
          assert (Hnone : heap w !! d = None) by (apply Hf; lia).
          assert (E : Some b = None) by (exact (eq_trans (eq_sym Hb) Hnone)).
          discriminate. }
        destruct (IH (S k) (next w) NVMEDevice w1) as (vs & d' & b' & w' & Hrun & Hl & Hd' & Hs' & Hz).
        { apply fresh_after_new, Hf. }
        { apply lookup_insert_eq. }
        { exact Hle. }
        { simpl. apply insert_subseteq_r; [apply fresh_w0; exact Hle|exact Hsub]. }
        { simpl. rewrite map_size_insert_None by exact Hn. lia. }
        exists (VVoid :: vs), d', b', w'. split.
        { eapply handle_perform_all_cons; [|exact Hrun].
          simpl. unfold void_. unmonad. rewrite handle_load_nvme. reflexivity. }
        split; [exact Hl|]. split; [exact Hd'|]. split; [exact Hs'|].
        rewrite Hz. simpl. lia.
      * set (w1 := emit (Cerr ("Unknown device type: " +:+ s +:+ nl)) w).
        destruct (IH k d b w1) as (vs & d' & b' & w' & Hrun & Hl & Hd' & Hs' & Hz);
          try assumption.
        exists (VVoid :: vs), d', b', w'. split.
        { eapply handle_perform_all_cons; [|exact Hrun].
          simpl. unfold void_. unmonad. rewrite (handle_load_unknown _ s _ w Hs). reflexivity. }
        split; [exact Hl|]. split; [exact Hd'|]. split; [exact Hs'|].
        rewrite Hz. simpl. rewrite Hs. lia.
    + destruct (DeepSpeedAIOTrampoline_run_live c d b w Hb) as (b1 & Hrun1).
      set (w1 := emit (Forward d c) (set_heap (<[d := b1]> (heap w)) w)) in *.
      destruct (IH k d b1 w1) as (vs & d' & b' & w' & Hrun & Hl & Hd' & Hs' & Hz).
      { eapply fresh_after_forward; eassumption. }
      { apply lookup_insert_eq. }
      { exact Hd. }
      { simpl. apply insert_subseteq_r; [apply fresh_w0; exact Hd|exact Hsub]. }
      { simpl. rewrite map_size_insert_Some by (eexists; exact Hb). exact Hsize. }
      exists (device_answer c b :: vs), d', b', w'. split.
      { eapply handle_perform_all_cons; [exact Hrun1|exact Hrun]. }
      split; [exact Hl|]. split; [exact Hd'|]. split; [exact Hs'|].
      rewrite Hz. simpl. lia.
Qed.

End HandleLeak.

(** X6: over the lifetime of an [aio_handle], every [load_device("nvme")]
    leaves one device allocated.  The object is built, used through any
    sequence of loads and forwarding calls, and destroyed; everything
    completes, the devices that were on the heap before are untouched, and
    the heap ends with as many devices more as there were loads of
    ["nvme"]: each such load replaces the pointer to the device in use
    without deleting it, and the destructor deletes only the last one. *)
Theorem aio_handle_leaks_one_device_per_load
    (NVMEDevice : Backend) (l : list Action) (w0 : World) :
  fresh w0 ->
  exists vs t w1 w2,
    and_then (DeepSpeedAIOTrampoline.construct NVMEDevice w0)
             (handle_perform_all NVMEDevice l) = Done vs t w1 /\
    DeepSpeedAIOTrampoline.destroy t w1 = Done tt t w2 /\
    heap w0 ⊆ heap w2 /\
    size (heap w2) = (size (heap w0) + nvme_loads l)%nat.
Proof.
  intros Hf. destruct (fresh_next w0 Hf) as [Hn _].
  unfold DeepSpeedAIOTrampoline.construct. rewrite handle_load_nvme. simpl.
  set (w1 := emit (New (next w0)) (bump (set_heap (<[next w0 := NVMEDevice]> (heap w0)) w0))).
  destruct (handle_leaks NVMEDevice w0 Hf l 0%nat (next w0) NVMEDevice w1)
    as (vs & d' & b' & w' & Hrun & Hl & Hd' & Hs' & Hz).
  { apply fresh_after_new, Hf. }
  { apply lookup_insert_eq. }
  { reflexivity. }
  { simpl. apply insert_subseteq, Hn. }
  { simpl. rewrite map_size_insert_None by exact Hn. lia. }
  exists vs, (DeepSpeedAIOTrampoline.mk (Some d')), w'.
  eexists. split; [exact Hrun|].
  split.
  { unfold DeepSpeedAIOTrampoline.destroy, if_set, delete_. simpl. rewrite Hl. reflexivity. }
  simpl. split.
  - apply map_subseteq_spec. intros i x Hi.
    assert (Hne : d' <> i).
    { intros Heq. subst i.
      assert (Hnone : heap w0 !! d' = None) by (apply Hf; exact Hd').
      assert (E : Some x = None) by (exact (eq_trans (eq_sym Hi) Hnone)).
      discriminate. }
    rewrite lookup_delete_ne by exact Hne.
    exact (lookup_weaken _ _ _ _ Hi Hs').
  - rewrite map_size_delete_Some by (eexists; exact Hl). rewrite Hz. lia.
Qed.

Lemma aio_handle_leaks_one_device_per_load_witness :
  fresh demo_world /\
  exists vs t w1 w2,
    and_then (DeepSpeedAIOTrampoline.construct demo_backend demo_world)
             (handle_perform_all demo_backend
                [a_load_device "nvme"; a_call c_get_block_size; a_load_device "gds";
                 a_load_device "nvme"]) = Done vs t w1 /\
    DeepSpeedAIOTrampoline.destroy t w1 = Done tt t w2 /\
    heap demo_world ⊆ heap w2 /\
    size (heap w2) = (size (heap demo_world) + 2)%nat.
Proof.
  assert (Hf : fresh demo_world) by (intros a _; split; apply lookup_empty).
  split; [exact Hf|].
  exact (aio_handle_leaks_one_device_per_load demo_backend
           [a_load_device "nvme"; a_call c_get_block_size; a_load_device "gds";
            a_load_device "nvme"] demo_world Hf).
Defined.

(** ** The string handed to the loader *)










(** ** Sequences of standalone calls *)

Section Requests.

Variable NVMEDevice : Backend.

Lemma fresh_after_scope w w' :
  fresh w -> (next w <= next w')%positive -> modules w' = modules w ->
  (forall a, (next w' <= a)%positive -> heap w' !! a = None) ->
  fresh w'.
Proof.
  intros Hf Hn Hm Hh a Ha. split; [apply Hh, Ha|]. rewrite Hm. apply Hf. lia.
Qed.

Lemma serve_step r w :
  fresh w ->
  exists w',
    serve NVMEDevice r w = Done tt tt w' /\ fresh w' /\
    modules w' = modules w /\ heap w ⊆ heap w' /\
    size (heap w') = (size (heap w) + loads_nvme r)%nat /\
    map snd (forwards (log w')) = map snd (forwards (log w)) ++ requested_call r /\
    cerr_lines (log w') = cerr_lines (log w) ++ unknown_type_lines
                            (match r with r_load_device s => [a_load_device s] | _ => [] end).
Proof.
  intros Hf. destruct (fresh_next w Hf) as [Hn _].
  assert (Hn1 : heap w !! Pos.succ (next w) = None) by (apply Hf; lia).
  assert (Hvoid : forall c f,
    exists w',
      py_ds_aio.scoped NVMEDevice (DeepSpeedAIOTrampoline.forward_void c f) w = Done tt tt w' /\
      fresh w' /\ modules w' = modules w /\ heap w' = heap w /\
      log w' = log w ++ [New (next w); Forward (next w) c; Delete (next w)]).
  { intros c f.
    unfold py_ds_aio.scoped, DeepSpeedAIOTrampoline.construct,
      DeepSpeedAIOTrampoline.load_device, DeepSpeedAIOTrampoline.forward_void.
    simpl. unmonad. unfold new_, DeepSpeedAIOTrampoline.set_device. simpl.
    unfold dispatch_void, invoke. simpl. rewrite lookup_insert_eq. simpl.
    unfold DeepSpeedAIOTrampoline.destroy, if_set, delete_. simpl.
    rewrite lookup_insert_eq. simpl.
    assert (Hheap : delete (next w) (<[next w := snd (f NVMEDevice)]>
                      (<[next w := NVMEDevice]> (heap w))) = heap w).
    { rewrite delete_insert_eq, delete_insert_eq. apply delete_id, Hn. }
    eexists. split; [reflexivity|]. split; [|split; [reflexivity|split]].
    - apply (fresh_after_scope w); [exact Hf|simpl; lia|reflexivity|].
      simpl. intros a Ha. rewrite Hheap. apply Hf. lia.
    - exact Hheap.
    - simpl. rewrite <- !app_assoc. reflexivity. }
  assert (Htransfer : forall c f,
    exists w',
      py_ds_aio.scoped NVMEDevice (DeepSpeedAIOTrampoline.forward_void c f) w = Done tt tt w' /\
      fresh w' /\ modules w' = modules w /\ heap w ⊆ heap w' /\
      size (heap w') = (size (heap w) + 0)%nat /\
      map snd (forwards (log w')) = map snd (forwards (log w)) ++ [c] /\
      cerr_lines (log w') = cerr_lines (log w) ++ []).
  { intros c f. destruct (Hvoid c f) as (w' & Hrun & Hf' & Hm & Hh & Hl).
    exists w'. split; [exact Hrun|]. split; [exact Hf'|]. split; [exact Hm|].
    rewrite Hh, Hl, forwards_app, cerr_lines_app, map_app. simpl.
    rewrite app_nil_r. split; [reflexivity|]. split; [lia|]. split; reflexivity. }
  destruct r as [b f v|b f v|d s|s]; simpl serve; simpl requested_call; simpl loads_nvme.
  - apply Htransfer.
  - apply Htransfer.
  - apply Htransfer.
  - unfold unknown_type_lines. simpl. destruct (String.eqb s "nvme") eqn:Hs.
    + apply String.eqb_eq in Hs. subst s.
      unfold py_ds_aio.load_device, py_ds_aio.scoped, DeepSpeedAIOTrampoline.construct,
        DeepSpeedAIOTrampoline.load_device.
      simpl. unmonad. unfold new_, DeepSpeedAIOTrampoline.set_device. simpl.
      unfold DeepSpeedAIOTrampoline.destroy, if_set, delete_. simpl.
      rewrite lookup_insert_eq. simpl.
      eexists. split; [reflexivity|]. simpl.
      rewrite !delete_insert_eq.
      rewrite !delete_id by (rewrite lookup_insert_ne by lia; exact Hn1).
      split.
      { apply (fresh_after_scope w); [exact Hf|simpl; lia|reflexivity|].
        simpl. intros a Ha. rewrite lookup_insert_ne by lia. apply Hf. lia. }
      split; [reflexivity|]. split; [apply insert_subseteq, Hn|].
      split; [rewrite map_size_insert_None by exact Hn; lia|].
      rewrite !forwards_app, !cerr_lines_app. simpl. rewrite !app_nil_r.
      split; reflexivity.
    + unfold py_ds_aio.load_device, py_ds_aio.scoped, DeepSpeedAIOTrampoline.construct.
      unfold DeepSpeedAIOTrampoline.load_device at 2. simpl String.eqb. cbv iota.
      unmonad. unfold new_, DeepSpeedAIOTrampoline.set_device. cbv beta iota.
      unfold DeepSpeedAIOTrampoline.load_device. rewrite Hs.
      unfold DeepSpeedAIOTrampoline.destroy, if_set, cerr, delete_. simpl.
      rewrite lookup_insert_eq. simpl.
      eexists. split; [reflexivity|]. simpl.
      rewrite !delete_insert_eq. rewrite !delete_id by exact Hn.
      split.
      { apply (fresh_after_scope w); [exact Hf|simpl; lia|reflexivity|].
        simpl. intros a Ha. apply Hf. lia. }
      split; [reflexivity|]. split; [reflexivity|].
      split; [lia|].
      rewrite !forwards_app, !cerr_lines_app. simpl. rewrite !app_nil_r.
      split; reflexivity.
Qed.

End Requests.

(** X8: standalone calls compose.  Any sequence of the module's standalone
    [aio_write], [aio_read], [deepspeed_memcpy] and [load_device] calls
    completes; each transfer request is forwarded exactly once, in the order
    the requests were made, and a [load_device] request forwards nothing; no
    module is opened; the devices that were on the heap are untouched, and
    the heap grows by one device for each [load_device("nvme")] request and
    by nothing else. *)
Theorem standalone_calls_compose (NVMEDevice : Backend) (l : list Request) (w : World) :
  fresh w ->
  exists w',
    serve_all NVMEDevice l w = Done tt tt w' /\
    modules w' = modules w /\
    heap w ⊆ heap w' /\
    size (heap w') = (size (heap w) + list_sum (map loads_nvme l))%nat /\
    map snd (forwards (log w')) = map snd (forwards (log w)) ++ flat_map requested_call l.
Proof.
  revert w. induction l as [|r rest IH]; intros w Hf.
  - exists w. split; [reflexivity|]. split; [reflexivity|]. split; [reflexivity|].
    split; [simpl; lia|]. simpl. rewrite app_nil_r. reflexivity.
  - destruct (serve_step NVMEDevice r w Hf) as (w1 & Hrun & Hf1 & Hm1 & Hs1 & Hz1 & Hfw1 & _).
    destruct (IH w1 Hf1) as (w2 & Hrun2 & Hm2 & Hs2 & Hz2 & Hfw2).
    exists w2. split; [simpl; rewrite Hrun; exact Hrun2|].
    split; [congruence|]. split; [etransitivity; eassumption|].
    split; [rewrite Hz2, Hz1; simpl; lia|].
    rewrite Hfw2, Hfw1. simpl. rewrite <- app_assoc. reflexivity.
Qed.

Lemma standalone_calls_compose_witness :
  fresh demo_world /\
  exists w',
    serve_all demo_backend
      [r_aio_write demo_tensor "f" true; r_load_device "nvme"; r_load_device "gds";
       r_aio_read demo_tensor "f" true] demo_world = Done tt tt w' /\
    modules w' = modules demo_world /\
    heap demo_world ⊆ heap w' /\
    size (heap w') = (size (heap demo_world) + 1)%nat /\
    map snd (forwards (log w'))
    = map snd (forwards (log demo_world))
      ++ [c_aio_write demo_tensor "f" true; c_aio_read demo_tensor "f" true].
Proof.
  assert (Hf : fresh demo_world) by (intros a _; split; apply lookup_empty).
  split; [exact Hf|].
  exact (standalone_calls_compose demo_backend
           [r_aio_write demo_tensor "f" true; r_load_device "nvme"; r_load_device "gds";
            r_aio_read demo_tensor "f" true] demo_world Hf).
Defined.

(** ** Calls without an active device *)

Lemma load_device_unresolvable_unloaded s w0 w :
  fresh w0 -> idle_since w0 w -> unresolvable s w0 ->
  exists w' line,
    Trampoline.load_device s (Trampoline.mk None None) w
      = Done tt (Trampoline.mk None None) w' /\ idle_since w0 w' /\
    cerr_lines (log w') = cerr_lines (log w) ++ [line] /\
    diagnose line = reported w0 (a_load_device s).
Proof.
  intros Hf0 Hidle Hu.
  pose proof (idle_since_fresh _ _ Hf0 Hidle) as Hf.
  destruct Hidle as (Hc & Hfi & Hh & Hm & Hfw & Hn).
  rewrite (load_device_released s _ w (owns_unloaded w)).
  assert (Hrel : released (Trampoline.mk None None) w = w).
  { unfold released, release_events. simpl. rewrite app_nil_r. destruct w; reflexivity. }
  rewrite Hrel.
  destruct Hu as [Hu|Hu].
  - assert (Hu' : open_fails s w)
      by (unfold open_fails in *; rewrite (lookup_module_same s w w0 Hc Hfi); exact Hu).
    destruct (open_and_create_open_fails s (Trampoline.mk None None) w Hu')
      as (w' & Hrun & Hh' & Hm' & Hc' & Hf' & Hn' & Hlog).
    exists w', (open_failure_line (loader_path s w)). split; [exact Hrun|].
    split.
    { unfold idle_since. rewrite Hc', Hf', Hh', Hm', Hn', Hlog, forwards_app. simpl.
      rewrite app_nil_r. repeat split; assumption. }
    split; [rewrite Hlog, cerr_lines_app; reflexivity|].
    unfold open_fails in Hu. simpl. rewrite Hu. reflexivity.
  - assert (Hu' : symbol_missing s w)
      by (unfold symbol_missing in *; rewrite (lookup_module_same s w w0 Hc Hfi); exact Hu).
    destruct (open_and_create_symbol_missing s (Trampoline.mk None None) w Hu')
      as (w' & Hrun & Hh' & Hm' & Hc' & Hf' & Hn' & Hlog).
    exists w', symbol_failure_line. split; [exact Hrun|].
    split.
    { unfold idle_since. rewrite Hc', Hf', Hh', Hm', Hn', Hlog, forwards_app. simpl.
      rewrite app_nil_r. repeat split; try assumption.
      + rewrite <- Hm. apply delete_id. apply (fresh_next w Hf).
      + etransitivity; [exact Hn|]. lia. }
    split; [rewrite Hlog, cerr_lines_app; reflexivity|].
    unfold symbol_missing in Hu. simpl. rewrite Hu. reflexivity.
Qed.

Lemma Trampoline_run_null c t w :
  Trampoline.device t = None ->
  Trampoline.run c t w = Done (no_device_value c) t (emit (Cerr (no_device_line c)) w).
Proof.
  intros H. destruct t as [d h]. simpl in H. subst d.
  destruct c; reflexivity.
Qed.

Lemma perform_without_device a w0 w :
  fresh w0 -> idle_since w0 w -> load_cannot_succeed w0 a ->
  exists w' line,
    perform a (Trampoline.mk None None) w
      = Done (value_without_device a) (Trampoline.mk None None) w' /\ idle_since w0 w' /\
    cerr_lines (log w') = cerr_lines (log w) ++ [line] /\
    diagnose line = reported w0 a.
Proof.
  intros Hf Hidle Ha. destruct a as [s|c]; simpl in Ha.
  - destruct (load_device_unresolvable_unloaded s w0 w Hf Hidle Ha)
      as (w' & line & Hrun & Hi & Hce & Hdi).
    exists w', line. split; [|split; [exact Hi|split; [exact Hce|exact Hdi]]].
    simpl. unfold void_. unmonad. rewrite Hrun. reflexivity.
  - exists (emit (Cerr (no_device_line c)) w), (no_device_line c). split.
    + apply Trampoline_run_null. reflexivity.
    + destruct Hidle as (Hc & Hfi & Hh & Hm & Hfw & Hn).
      split.
      { unfold idle_since. simpl. rewrite forwards_app. simpl. rewrite app_nil_r.
        repeat split; assumption. }
      split; [simpl; rewrite cerr_lines_app; reflexivity|].
      destruct c; reflexivity.
Qed.

Lemma perform_all_without_device l w0 w :
  fresh w0 -> idle_since w0 w -> Forall (load_cannot_succeed w0) l ->
  exists w' lines,
    perform_all l (Trampoline.mk None None) w
      = Done (map value_without_device l) (Trampoline.mk None None) w' /\
    idle_since w0 w' /\
    cerr_lines (log w') = cerr_lines (log w) ++ lines /\
    map diagnose lines = map (reported w0) l.
Proof.
  intros Hf. revert w. induction l as [|a r IH]; intros w Hidle Hall.
  - exists w, []. split; [reflexivity|]. split; [exact Hidle|].
    split; [symmetry; apply app_nil_r|reflexivity].
  - inversion Hall as [|? ? Ha Hr]; subst.
    destruct (perform_without_device a w0 w Hf Hidle Ha)
      as (w1 & line & Hrun1 & Hi1 & Hce1 & Hdi1).
    destruct (IH w1 Hi1 Hr) as (w2 & lines & Hrun2 & Hi2 & Hce2 & Hdi2).
    exists w2, (line :: lines). split; [|split; [exact Hi2|split]].
    + simpl. unmonad. rewrite Hrun1.
      change (match perform_all r (Trampoline.mk None None) w1 with
              | Done a0 this' w' => Done (value_without_device a :: a0) this' w'
              | Thrown this' w' => Thrown this' w'
              | Undefined u => Undefined u
              end = Done (value_without_device a :: map value_without_device r)
                         (Trampoline.mk None None) w2).
      rewrite Hrun2. reflexivity.
    + rewrite Hce2, Hce1, <- app_assoc. reflexivity.
    + simpl. rewrite Hdi1, Hdi2. reflexivity.
Qed.

(** C2 (failing input at the last part): a forwarding member called while
    [device] is null writes its "No device loaded" line to [std::cerr] and
    does nothing else: the object, the heap and the open modules are as
    before, nothing is forwarded, and a query returns its sentinel ([-1] or
    [false]); this holds for both trampolines.  For a [Trampoline] it holds
    through any sequence of calls made before a [load_device] has
    succeeded: the object stays unloaded, no call reaches a backend, and
    every call is reported by one line of its kind.  It does not hold after
    a [load_device] that fails on a loaded [Trampoline]: no device is live
    then, but [device] still holds the address of the deleted one, and
    every forwarding member calls it instead of reporting. *)
Theorem no_device_dispatch :
  (forall c t w,
     Trampoline.device t = None ->
     Trampoline.run c t w
     = Done (no_device_value c) t (emit (Cerr (no_device_line c)) w)) /\
  (forall c t w,
     DeepSpeedAIOTrampoline.device t = None ->
     DeepSpeedAIOTrampoline.run c t w
     = Done (no_device_value c) t (emit (Cerr ("No device loaded" +:+ nl)) w)) /\
  (forall s0 l w0,
     fresh w0 -> unresolvable s0 w0 -> Forall (load_cannot_succeed w0) l ->
     exists w' lines,
       and_then (Trampoline.construct s0 w0) (perform_all l)
       = Done (map value_without_device l) (Trampoline.mk None None) w' /\
       heap w' = heap w0 /\ modules w' = modules w0 /\
       forwards (log w') = forwards (log w0) /\
       cerr_lines (log w') = cerr_lines (log w0) ++ lines /\
       map diagnose lines = map (reported w0) (a_load_device s0 :: l)) /\
  (forall s d h w,
     owns (Trampoline.mk (Some d) (Some h)) w -> unresolvable s w ->
     exists w',
       Trampoline.load_device s (Trampoline.mk (Some d) (Some h)) w
       = Done tt (Trampoline.mk (Some d) None) w' /\
       heap w' !! d = None /\
       forall c, Trampoline.run c (Trampoline.mk (Some d) None) w'
                 = Undefined (UseAfterFree d)).
Proof.
  split; [exact Trampoline_run_null|].
  split; [exact DeepSpeedAIOTrampoline_run_no_device|].
  split.
  - intros s0 l w0 Hf Hu Hall.
    destruct (load_device_unresolvable_unloaded s0 w0 w0 Hf (idle_since_refl w0) Hu)
      as (w1 & line & Hrun1 & Hi1 & Hce1 & Hdi1).
    destruct (perform_all_without_device l w0 w1 Hf Hi1 Hall)
      as (w2 & lines & Hrun2 & Hi2 & Hce2 & Hdi2).
    exists w2, (line :: lines). unfold Trampoline.construct. rewrite Hrun1. simpl.
    split; [exact Hrun2|].
    destruct Hi2 as (_ & _ & Hh & Hm & Hfw & _).
    split; [exact Hh|]. split; [exact Hm|]. split; [exact Hfw|].
    split; [rewrite Hce2, Hce1, <- app_assoc; reflexivity|].
    simpl in Hdi1. rewrite Hdi1, Hdi2. reflexivity.
  - intros s d h w Hown Hu.
    destruct (load_device_failure_keeps_device_field s d h _ w eq_refl Hown Hu)
      as (w' & Hrun & Hgone).
    exists w'. split; [exact Hrun|]. split; [exact Hgone|].
    intros c. apply Trampoline_run_dangling, Hgone.
Qed.

Lemma no_device_dispatch_witness :
  (fresh demo_world /\ unresolvable "null" demo_world /\
   Forall (load_cannot_succeed demo_world)
          [a_call c_get_block_size; a_load_device "broken"; a_call c_wait;
           a_call (c_async_pwrite demo_tensor "f")] /\
   exists w' lines,
     and_then (Trampoline.construct "null" demo_world)
              (perform_all [a_call c_get_block_size; a_load_device "broken"; a_call c_wait;
                            a_call (c_async_pwrite demo_tensor "f")])
     = Done [VInt (-1); VVoid; VVoid; VVoid] (Trampoline.mk None None) w' /\
     heap w' = heap demo_world /\ modules w' = modules demo_world /\
     forwards (log w') = forwards (log demo_world) /\
     cerr_lines (log w') = cerr_lines (log demo_world) ++ lines /\
     map diagnose lines
     = [Some ModuleOpenFailure; Some NoDeviceLoaded; Some MissingEntryPoint;
        Some NoDeviceLoaded; Some NoDeviceLoaded]) /\
  (owns nvme_loaded nvme_loaded_world /\ unresolvable "null" nvme_loaded_world /\
   exists w',
     Trampoline.load_device "null" nvme_loaded nvme_loaded_world
     = Done tt (Trampoline.mk (Some 2%positive) None) w' /\
     heap w' !! 2%positive = None /\
     forall c, Trampoline.run c (Trampoline.mk (Some 2%positive) None) w'
               = Undefined (UseAfterFree 2%positive)).
Proof.
  assert (Hf : fresh demo_world) by (intros a _; split; apply lookup_empty).
  assert (Hu : unresolvable "null" demo_world) by (left; vm_compute; reflexivity).
  assert (Hall : Forall (load_cannot_succeed demo_world)
                   [a_call c_get_block_size; a_load_device "broken"; a_call c_wait;
                    a_call (c_async_pwrite demo_tensor "f")]).
  { constructor; [exact I|].
    constructor; [right; vm_compute; reflexivity|].
    constructor; [exact I|].
    constructor; [exact I|]. constructor. }
  assert (Ho : owns nvme_loaded nvme_loaded_world)
    by (split; vm_compute; eexists; reflexivity).
  assert (Hu' : unresolvable "null" nvme_loaded_world) by (left; vm_compute; reflexivity).
  destruct no_device_dispatch as (_ & _ & Hseq & Hbad).
  split.
  - split; [exact Hf|]. split; [exact Hu|]. split; [exact Hall|].
    exact (Hseq "null" _ demo_world Hf Hu Hall).
  - split; [exact Ho|]. split; [exact Hu'|].
    exact (Hbad "null" 2%positive 1%positive nvme_loaded_world Ho Hu').
Defined.
